(** * go-serial, Windows back end ([serial_windows.go])

    A shallow embedding of the Windows implementation of the serial port
    library and the properties of its port life cycle, transfer engine,
    break generator and port enumerator.

    The operating system is an explicit collaborator: every Win32 call the
    source makes is a node of a program tree ([prog]); running a tree against
    an operating system model ([OS]) yields the returned value, the trace of
    calls with their answers, and the final state of the system. *)

From stdpp Require Import base list strings.
From Stdlib Require Import ZArith Lia.

Local Open Scope Z_scope.

(* ===================================================================== *)
(** ** Go integer conversions *)
(* ===================================================================== *)

(** [uint32(x)], [uint16(x)] and [byte(x)] of an integer keep the low bits. *)
Definition uint32 (x : Z) : Z := x mod 2 ^ 32.
Definition uint16 (x : Z) : Z := x mod 2 ^ 16.
Definition byte_of (x : Z) : Z := x mod 2 ^ 8.

(** [^x] on a [uint32] value. *)
Definition not32 (x : Z) : Z := Z.lxor (uint32 x) 4294967295.

(** A signed 64 bit integer ([int64], [time.Duration], and [int] on a 64 bit
    target) wraps around in two's complement. *)
Definition int64 (x : Z) : Z := (x + 2 ^ 63) mod 2 ^ 64 - 2 ^ 63.

(** [time.Millisecond], in nanoseconds, and [time.Duration(ms) * time.Millisecond]. *)
Definition Millisecond : Z := 1000000.
Definition Duration_ms (ms : Z) : Z := int64 (int64 ms * Millisecond).

(* ===================================================================== *)
(** ** Data model *)
(* ===================================================================== *)

(** [syscall.Handle] and [syscall.Errno] are machine words. *)
Definition Handle := Z.
Definition Errno := Z.

Definition ERROR_FILE_NOT_FOUND : Errno := 2.
Definition ERROR_ACCESS_DENIED : Errno := 5.
Definition ERROR_INVALID_HANDLE : Errno := 6.
Definition ERROR_INVALID_PARAMETER : Errno := 87.
(** [syscall.EINVAL], one of the invented values above [APPLICATION_ERROR]. *)
Definition EINVAL : Errno := 536870951.

(** The codes of [SerialPortError] this file uses.  They are declared in the
    portable part of the package; only their being distinct matters here. *)
Inductive ErrorCode : Type :=
| ERROR_PORT_BUSY
| ERROR_PORT_NOT_FOUND
| ERROR_INVALID_SERIAL_PORT
| ERROR_ENUMERATING_PORTS.

(** A Go [error] value: a platform error number or a [*SerialPortError]. *)
Inductive error : Type :=
| SysError (e : Errno)
| SerialPortError (code : ErrorCode).

(** Modelled from the spec: the error kinds of its section 7, which are not
    declared in the Windows file, and the kind carried by an error value (a
    code belongs to the kind of the same name). *)
Inductive ErrorKind : Type :=
| PortNotFound
| PortBusy
| InvalidConfiguration
| InvalidSerialPort
| EnumerationFailed
| RawPlatformError.

Definition kind_of (e : error) : ErrorKind :=
  match e with
  | SysError _ => RawPlatformError
  | SerialPortError ERROR_PORT_BUSY => PortBusy
  | SerialPortError ERROR_PORT_NOT_FOUND => PortNotFound
  | SerialPortError ERROR_INVALID_SERIAL_PORT => InvalidSerialPort
  | SerialPortError ERROR_ENUMERATING_PORTS => EnumerationFailed
  end.

(** The opaque port object: only the native handle, no other state. *)
Record SerialPort : Type := { handle : Handle }.

(** Modelled from the spec: the line configuration [Mode], declared in the
    portable part of the package.  Its four fields are Go integers, which
    [SetMode] converts with [uint32(...)] and [byte(...)]. *)
Record Mode : Type := {
  mode_BaudRate : Z;
  mode_DataBits : Z;
  mode_Parity : Z;
  mode_StopBits : Z
}.

(** The bits of [Flags].  They are untyped constants; the two
    [..._DISABLE_MASK] complements are declared and used nowhere. *)
Definition DCB_BINARY : Z := 0x00000001.
Definition DCB_PARITY : Z := 0x00000002.
Definition DCB_OUT_X_CTS_FLOW : Z := 0x00000004.
Definition DCB_OUT_X_DSR_FLOW : Z := 0x00000008.
Definition DCB_DTR_CONTROL_DISABLE_MASK : Z := Z.lnot 0x00000030.
Definition DCB_DTR_CONTROL_ENABLE : Z := 0x00000010.
Definition DCB_DTR_CONTROL_HANDSHAKE : Z := 0x00000020.
Definition DCB_DSR_SENSITIVITY : Z := 0x00000040.
Definition DCB_TX_CONTINUE_ON_XOFF : Z := 0x00000080.
Definition DCB_OUT_X : Z := 0x00000100.
Definition DCB_IN_X : Z := 0x00000200.
Definition DCB_ERROR_CHAR : Z := 0x00000400.
Definition DCB_NULL : Z := 0x00000800.
Definition DCB_RTS_CONTROL_DISABLE_MASK : Z := Z.lnot 0x00003000.
Definition DCB_RTS_CONTROL_ENABLE : Z := 0x00001000.
Definition DCB_RTS_CONTROL_HANDSHAKE : Z := 0x00002000.
Definition DCB_RTS_CONTROL_TOGGLE : Z := 0x00003000.
Definition DCB_ABORT_ON_ERROR : Z := 0x00004000.

(** The native control record.  [Flags] is the packed bit field. *)
Record DCB : Type := {
  DCBlength : Z;
  BaudRate : Z;
  Flags : Z;
  wReserved : Z;
  XonLim : Z;
  XoffLim : Z;
  ByteSize : Z;
  Parity : Z;
  StopBits : Z;
  XonChar : Z;
  XoffChar : Z;
  ErrorChar : Z;
  EofChar : Z;
  EvtChar : Z;
  wReserved1 : Z
}.

(** [DCB{}]: the zero value. *)
Definition DCB_zero : DCB :=
  {| DCBlength := 0; BaudRate := 0; Flags := 0; wReserved := 0; XonLim := 0;
     XoffLim := 0; ByteSize := 0; Parity := 0; StopBits := 0; XonChar := 0;
     XoffChar := 0; ErrorChar := 0; EofChar := 0; EvtChar := 0;
     wReserved1 := 0 |}.

(** Assignments to single fields of a control record. *)
Definition set_BaudRate (v : Z) (d : DCB) : DCB :=
  {| DCBlength := DCBlength d; BaudRate := v; Flags := Flags d;
     wReserved := wReserved d; XonLim := XonLim d; XoffLim := XoffLim d;
     ByteSize := ByteSize d; Parity := Parity d; StopBits := StopBits d;
     XonChar := XonChar d; XoffChar := XoffChar d; ErrorChar := ErrorChar d;
     EofChar := EofChar d; EvtChar := EvtChar d; wReserved1 := wReserved1 d |}.
Definition set_Flags (v : Z) (d : DCB) : DCB :=
  {| DCBlength := DCBlength d; BaudRate := BaudRate d; Flags := v;
     wReserved := wReserved d; XonLim := XonLim d; XoffLim := XoffLim d;
     ByteSize := ByteSize d; Parity := Parity d; StopBits := StopBits d;
     XonChar := XonChar d; XoffChar := XoffChar d; ErrorChar := ErrorChar d;
     EofChar := EofChar d; EvtChar := EvtChar d; wReserved1 := wReserved1 d |}.
Definition set_XonLim (v : Z) (d : DCB) : DCB :=
  {| DCBlength := DCBlength d; BaudRate := BaudRate d; Flags := Flags d;
     wReserved := wReserved d; XonLim := v; XoffLim := XoffLim d;
     ByteSize := ByteSize d; Parity := Parity d; StopBits := StopBits d;
     XonChar := XonChar d; XoffChar := XoffChar d; ErrorChar := ErrorChar d;
     EofChar := EofChar d; EvtChar := EvtChar d; wReserved1 := wReserved1 d |}.
Definition set_XoffLim (v : Z) (d : DCB) : DCB :=
  {| DCBlength := DCBlength d; BaudRate := BaudRate d; Flags := Flags d;
     wReserved := wReserved d; XonLim := XonLim d; XoffLim := v;
     ByteSize := ByteSize d; Parity := Parity d; StopBits := StopBits d;
     XonChar := XonChar d; XoffChar := XoffChar d; ErrorChar := ErrorChar d;
     EofChar := EofChar d; EvtChar := EvtChar d; wReserved1 := wReserved1 d |}.
Definition set_ByteSize (v : Z) (d : DCB) : DCB :=
  {| DCBlength := DCBlength d; BaudRate := BaudRate d; Flags := Flags d;
     wReserved := wReserved d; XonLim := XonLim d; XoffLim := XoffLim d;
     ByteSize := v; Parity := Parity d; StopBits := StopBits d;
     XonChar := XonChar d; XoffChar := XoffChar d; ErrorChar := ErrorChar d;
     EofChar := EofChar d; EvtChar := EvtChar d; wReserved1 := wReserved1 d |}.
Definition set_Parity (v : Z) (d : DCB) : DCB :=
  {| DCBlength := DCBlength d; BaudRate := BaudRate d; Flags := Flags d;
     wReserved := wReserved d; XonLim := XonLim d; XoffLim := XoffLim d;
     ByteSize := ByteSize d; Parity := v; StopBits := StopBits d;
     XonChar := XonChar d; XoffChar := XoffChar d; ErrorChar := ErrorChar d;
     EofChar := EofChar d; EvtChar := EvtChar d; wReserved1 := wReserved1 d |}.
Definition set_StopBits (v : Z) (d : DCB) : DCB :=
  {| DCBlength := DCBlength d; BaudRate := BaudRate d; Flags := Flags d;
     wReserved := wReserved d; XonLim := XonLim d; XoffLim := XoffLim d;
     ByteSize := ByteSize d; Parity := Parity d; StopBits := v;
     XonChar := XonChar d; XoffChar := XoffChar d; ErrorChar := ErrorChar d;
     EofChar := EofChar d; EvtChar := EvtChar d; wReserved1 := wReserved1 d |}.
Definition set_XonChar (v : Z) (d : DCB) : DCB :=
  {| DCBlength := DCBlength d; BaudRate := BaudRate d; Flags := Flags d;
     wReserved := wReserved d; XonLim := XonLim d; XoffLim := XoffLim d;
     ByteSize := ByteSize d; Parity := Parity d; StopBits := StopBits d;
     XonChar := v; XoffChar := XoffChar d; ErrorChar := ErrorChar d;
     EofChar := EofChar d; EvtChar := EvtChar d; wReserved1 := wReserved1 d |}.
Definition set_XoffChar (v : Z) (d : DCB) : DCB :=
  {| DCBlength := DCBlength d; BaudRate := BaudRate d; Flags := Flags d;
     wReserved := wReserved d; XonLim := XonLim d; XoffLim := XoffLim d;
     ByteSize := ByteSize d; Parity := Parity d; StopBits := StopBits d;
     XonChar := XonChar d; XoffChar := v; ErrorChar := ErrorChar d;
     EofChar := EofChar d; EvtChar := EvtChar d; wReserved1 := wReserved1 d |}.

Record COMMTIMEOUTS : Type := {
  ReadIntervalTimeout : Z;
  ReadTotalTimeoutMultiplier : Z;
  ReadTotalTimeoutConstant : Z;
  WriteTotalTimeoutMultiplier : Z;
  WriteTotalTimeoutConstant : Z
}.

Definition NOPARITY : Z := 0.
Definition ODDPARITY : Z := 1.
Definition EVENPARITY : Z := 2.
Definition MARKPARITY : Z := 3.
Definition SPACEPARITY : Z := 4.

Definition ONESTOPBIT : Z := 0.
Definition ONE5STOPBITS : Z := 1.
Definition TWOSTOPBITS : Z := 2.

(** The two bit line control fields of [Flags] ([fDtrControl], [fRtsControl])
    and its one bit fields, as the bit field comment of [DCB] lays them out. *)
Definition fDtrControl (d : DCB) : Z := Z.land (Z.shiftr (Flags d) 4) 3.
Definition fRtsControl (d : DCB) : Z := Z.land (Z.shiftr (Flags d) 12) 3.
Definition fOutxCtsFlow (d : DCB) : bool := Z.testbit (Flags d) 2.
Definition fOutxDsrFlow (d : DCB) : bool := Z.testbit (Flags d) 3.

(** The values of a two bit line control field. *)
Definition CONTROL_DISABLE : Z := 0.
Definition CONTROL_ENABLE : Z := 1.
Definition CONTROL_HANDSHAKE : Z := 2.
Definition CONTROL_TOGGLE : Z := 3.

(* ===================================================================== *)
(** ** The operating system interface *)
(* ===================================================================== *)

(** The Win32 and Go runtime calls the file makes, with the arguments that
    vary.  [CreateFile] is always called for read and write access, without
    sharing, on an existing device; [ReadFile] carries the length of the
    caller's buffer and [WriteFile] the bytes to send; [Sleep] carries a
    [time.Duration]; [RegEnumValue] is always given two buffers of 1024
    code units. *)
Inductive call : Type :=
| CreateFile (path : string)
| CloseHandle (h : Handle)
| ReadFile (h : Handle) (len : nat)
| WriteFile (h : Handle) (p : list Z)
| GetCommState (h : Handle)
| SetCommState (h : Handle) (dcb : DCB)
| SetCommTimeouts (h : Handle) (timeouts : COMMTIMEOUTS)
| SetCommBreak (h : Handle)
| ClearCommBreak (h : Handle)
| Sleep (d : Z)
| RegOpenKeyEx (subKey : string)
| RegQueryInfoKey (key : Handle)
| RegEnumValue (key : Handle) (index : Z)
| RegCloseKey (key : Handle).

(** What a call gives back.  A call that fills a result in through a
    pointer answers with that result or with an error number; a call that
    only reports success answers with an optional error number ([None] is
    Go's [nil]).  [ReadFile] and [WriteFile] answer with the count they
    leave in [*done] and the optional error; [GetCommState] with the record
    it stores (on failure the caller's record is left as it was);
    [RegQueryInfoKey] with the number of values of the key; [RegEnumValue]
    with the UTF-16 code units it stores in the data buffer. *)
Definition resp (c : call) : Type :=
  match c with
  | CreateFile _ => (Handle + Errno)%type
  | CloseHandle _ => option Errno
  | ReadFile _ _ => (Z * option Errno)%type
  | WriteFile _ _ => (Z * option Errno)%type
  | GetCommState _ => (DCB + Errno)%type
  | SetCommState _ _ => option Errno
  | SetCommTimeouts _ _ => option Errno
  | SetCommBreak _ => option Errno
  | ClearCommBreak _ => option Errno
  | Sleep _ => unit
  | RegOpenKeyEx _ => (Handle + Errno)%type
  | RegQueryInfoKey _ => (Z + Errno)%type
  | RegEnumValue _ _ => (list Z + Errno)%type
  | RegCloseKey _ => option Errno
  end.

(** Programs over the interface: return a value, or make a call and go on
    with its answer. *)
Inductive prog (A : Type) : Type :=
| Ret (a : A)
| Sys (c : call) (k : resp c -> prog A).
Arguments Ret {A} a.
Arguments Sys {A} c k.

Fixpoint bind {A B : Type} (p : prog A) (f : A -> prog B) : prog B :=
  match p with
  | Ret a => f a
  | Sys c k => Sys c (fun r => bind (k r) f)
  end.

Definition sys (c : call) : prog (resp c) := Sys c Ret.

Declare Scope prog_scope.
Delimit Scope prog_scope with prog.
Notation "'let*' x := p 'in' q" := (bind p (fun x => q))
  (at level 10, x name, p at level 100, q at level 200) : prog_scope.
Local Open Scope prog_scope.

(** An operating system: a state and, for every call, the answer and the next
    state. *)
Record OS : Type := {
  world : Type;
  syscall : forall c : call, world -> resp c * world
}.

(** One call together with its answer. *)
Inductive event : Type :=
| Ev (c : call) (r : resp c).

(** Running a program: its value, the calls it made in order, and the state
    it leaves. *)
Fixpoint run {A : Type} (os : OS) (p : prog A) (w : world os)
  : A * list event * world os :=
  match p with
  | Ret a => (a, [], w)
  | Sys c k =>
      let '(r, w1) := syscall os c w in
      let '(a, t, w2) := run os (k r) w1 in
      (a, Ev c r :: t, w2)
  end.

Definition result {A : Type} {W : Type} (x : A * list event * W) : A := x.1.1.
Definition trace {A : Type} {W : Type} (x : A * list event * W) : list event := x.1.2.
Definition final {A : Type} {W : Type} (x : A * list event * W) : W := x.2.

(** Observations on traces. *)
Definition is_CloseHandle (h : Handle) (e : event) : bool :=
  match e with
  | Ev (CloseHandle h') _ => Z.eqb h h'
  | _ => false
  end.

(** How many times a trace closes the handle [h]. *)
Fixpoint closes (h : Handle) (t : list event) : nat :=
  match t with
  | [] => 0%nat
  | e :: t' => ((if is_CloseHandle h e then 1 else 0) + closes h t')%nat
  end.

(** The handle of a call on an open device, other than closing it. *)
Definition device (c : call) : option Handle :=
  match c with
  | ReadFile h _ | WriteFile h _ | GetCommState h | SetCommState h _
  | SetCommTimeouts h _ | SetCommBreak h | ClearCommBreak h => Some h
  | _ => None
  end.

(** The error number in an answer, if it is a failure. *)
Definition failure (c : call) : resp c -> option Errno :=
  match c return resp c -> option Errno with
  | CreateFile _ | RegOpenKeyEx _ =>
      fun r => match r with inl _ => None | inr e => Some e end
  | GetCommState _ => fun r => match r with inl _ => None | inr e => Some e end
  | RegQueryInfoKey _ => fun r => match r with inl _ => None | inr e => Some e end
  | RegEnumValue _ _ => fun r => match r with inl _ => None | inr e => Some e end
  | ReadFile _ _ | WriteFile _ _ => fun r => r.2
  | CloseHandle _ | SetCommState _ _ | SetCommTimeouts _ _ | SetCommBreak _
  | ClearCommBreak _ | RegCloseKey _ => fun r => r
  | Sleep _ => fun _ => None
  end.

(** The system refuses every device call on the handle [h] in state [w]. *)
Definition rejected (os : OS) (h : Handle) (w : world os) : Prop :=
  forall c, device c = Some h -> failure c (syscall os c w).1 <> None.

(** The three stages of the enumeration of ports. *)
Definition stage (c : call) : bool :=
  match c with
  | RegOpenKeyEx _ | RegQueryInfoKey _ | RegEnumValue _ _ => true
  | _ => false
  end.

(** The event is a failed stage of the enumeration. *)
Definition stage_failed (e : event) : bool :=
  match e with
  | Ev c r => stage c && bool_decide (failure c r <> None)
  end.

(* ===================================================================== *)
(** ** Strings of the Go runtime *)
(* ===================================================================== *)

Definition backslash : string := String (Ascii.ascii_of_nat 92) EmptyString.

Fixpoint has_nul (s : string) : bool :=
  match s with
  | EmptyString => false
  | String c s' => if Ascii.eqb c Ascii.zero then true else has_nul s'
  end.

(** [syscall.UTF16PtrFromString]: [EINVAL] when the string holds a NUL byte.
    The pointer to the encoded string is represented by the string. *)
Definition UTF16PtrFromString (s : string) : string + error :=
  if has_nul s then inr (SysError EINVAL) else inl s.

(** [unicode/utf16.Decode]: a surrogate pair is one code point, a lone
    surrogate the replacement character.  This is how [syscall.UTF16ToString]
    decodes with the toolchains before Go 1.21; the later ones keep a lone
    surrogate. *)
Fixpoint utf16_Decode (s : list Z) : list Z :=
  match s with
  | [] => []
  | r :: s' =>
      if (r <? 0xd800) || (0xe000 <=? r) then r :: utf16_Decode s'
      else if r <? 0xdc00 then
        match s' with
        | r2 :: s'' =>
            if (0xdc00 <=? r2) && (r2 <? 0xe000)
            then ((r - 0xd800) * 1024 + (r2 - 0xdc00) + 0x10000) :: utf16_Decode s''
            else 0xFFFD :: utf16_Decode s'
        | [] => [0xFFFD]
        end
      else 0xFFFD :: utf16_Decode s'
  end.

(** The UTF-8 bytes of a code point, as [string(runes)] encodes it. *)
Definition utf8_EncodeRune (r : Z) : list Z :=
  if r <? 0x80 then [r]
  else if r <? 0x800 then [Z.lor 0xC0 (Z.shiftr r 6); Z.lor 0x80 (Z.land r 0x3F)]
  else if r <? 0x10000 then
    [Z.lor 0xE0 (Z.shiftr r 12); Z.lor 0x80 (Z.land (Z.shiftr r 6) 0x3F);
     Z.lor 0x80 (Z.land r 0x3F)]
  else
    [Z.lor 0xF0 (Z.shiftr r 18); Z.lor 0x80 (Z.land (Z.shiftr r 12) 0x3F);
     Z.lor 0x80 (Z.land (Z.shiftr r 6) 0x3F); Z.lor 0x80 (Z.land r 0x3F)].

Fixpoint string_of_bytes (l : list Z) : string :=
  match l with
  | [] => EmptyString
  | b :: l' => String (Ascii.ascii_of_N (Z.to_N b)) (string_of_bytes l')
  end.

Fixpoint until_nul (s : list Z) : list Z :=
  match s with
  | [] => []
  | v :: s' => if v =? 0 then [] else v :: until_nul s'
  end.

(** [syscall.UTF16ToString]: the code units before the first NUL, decoded. *)
Definition UTF16ToString (s : list Z) : string :=
  string_of_bytes (concat (map utf8_EncodeRune (utf16_Decode (until_nul s)))).

(** A zeroed array of [n] code units after the system stored [written] at
    its start. *)
Definition buffer (n : nat) (written : list Z) : list Z :=
  take n (written ++ replicate n 0).

(* ===================================================================== *)
(** ** The functions of [serial_windows.go] *)
(* ===================================================================== *)

Definition ERR_INVALID_PORT : option error :=
  Some (SerialPortError ERROR_INVALID_SERIAL_PORT).

Definition ERR_ENUMERATING : option error :=
  Some (SerialPortError ERROR_ENUMERATING_PORTS).

Definition as_error (r : option Errno) : option error :=
  match r with
  | Some e => Some (SysError e)
  | None => None
  end.

(** [func (port *SerialPort) Close() error] *)
Definition Close (port : SerialPort) : prog (option error) :=
  let* r := sys (CloseHandle (handle port)) in
  Ret (as_error r).

(** The loop of [Read].  [fuel] bounds the number of blocking reads; [None]
    is a loop still running when the bound is reached.  [params] is the
    local that lives across iterations; [readed] is set by every read.  The
    bytes stored in the caller's buffer are not tracked. *)
Fixpoint Read_loop (fuel : nat) (port : SerialPort) (len : nat)
    (params : DCB) : prog (option (Z * option error)) :=
  match fuel with
  | O => Ret None
  | S fuel' =>
      let* r := sys (ReadFile (handle port) len) in
      let readed := r.1 in
      match r.2 with
      | Some err => Ret (Some (readed, Some (SysError err)))
      | None =>
          if 0 <? readed then Ret (Some (readed, None))
          else
            let* g := sys (GetCommState (handle port)) in
            let params := match g with inl d => d | inr _ => params end in
            let* s := sys (SetCommState (handle port) params) in
            match s with
            | Some err =>
                let* c := Close port in
                Ret (Some (0, Some (SysError err)))
            | None => Read_loop fuel' port len params
            end
      end
  end.

(** [func (port *SerialPort) Read(p []byte) (int, error)], for a buffer of
    [len] bytes. *)
Definition Read (fuel : nat) (port : SerialPort) (len : nat)
  : prog (option (Z * option error)) :=
  Read_loop fuel port len DCB_zero.

(** [func (port *SerialPort) Write(p []byte) (int, error)] *)
Definition Write (port : SerialPort) (p : list Z) : prog (Z * option error) :=
  let* r := sys (WriteFile (handle port) p) in
  Ret (r.1, as_error r.2).

(** [func (port *SerialPort) SendBreak(breakTime int) error] *)
Definition SendBreak (port : SerialPort) (breakTime : Z) : prog (option error) :=
  let* b := sys (SetCommBreak (handle port)) in
  match b with
  | Some _ =>
      let* c := Close port in
      Ret ERR_INVALID_PORT
  | None =>
      let* u := sys (Sleep (Duration_ms breakTime)) in
      let* b := sys (ClearCommBreak (handle port)) in
      match b with
      | Some _ =>
          let* c := Close port in
          Ret ERR_INVALID_PORT
      | None => Ret None
      end
  end.

(** The four assignments of [SetMode] to the record it fetched. *)
Definition apply_mode (mode : Mode) (params : DCB) : DCB :=
  let params :=
    if mode_BaudRate mode =? 0 then set_BaudRate 9600 params
    else set_BaudRate (uint32 (mode_BaudRate mode)) params in
  let params :=
    if mode_DataBits mode =? 0 then set_ByteSize 8 params
    else set_ByteSize (byte_of (mode_DataBits mode)) params in
  let params := set_StopBits (byte_of (mode_StopBits mode)) params in
  let params := set_Parity (byte_of (mode_Parity mode)) params in
  params.

(** [func (port *SerialPort) SetMode(mode *Mode) error] *)
Definition SetMode (port : SerialPort) (mode : Mode) : prog (option error) :=
  let* g := sys (GetCommState (handle port)) in
  match g with
  | inr _ =>
      let* c := Close port in
      Ret ERR_INVALID_PORT
  | inl params =>
      let params := apply_mode mode params in
      let* s := sys (SetCommState (handle port) params) in
      match s with
      | Some _ =>
          let* c := Close port in
          Ret ERR_INVALID_PORT
      | None => Ret None
      end
  end.

(** The assignments of [OpenPort] to the record it fetched after [SetMode]. *)
Definition apply_policy (params : DCB) : DCB :=
  let f := Flags params in
  let f := Z.lor f (Z.lor DCB_RTS_CONTROL_ENABLE DCB_DTR_CONTROL_ENABLE) in
  let f := Z.land f (not32 DCB_OUT_X_CTS_FLOW) in
  let f := Z.land f (not32 DCB_OUT_X_DSR_FLOW) in
  let f := Z.land f (not32 DCB_DSR_SENSITIVITY) in
  let f := Z.lor f DCB_TX_CONTINUE_ON_XOFF in
  let f := Z.land f (not32 (Z.lor DCB_IN_X DCB_OUT_X)) in
  let f := Z.land f (not32 DCB_ERROR_CHAR) in
  let f := Z.land f (not32 DCB_NULL) in
  let f := Z.land f (not32 DCB_ABORT_ON_ERROR) in
  let params := set_Flags f params in
  let params := set_XonLim 2048 params in
  let params := set_XoffLim 512 params in
  let params := set_XonChar 17 params in
  let params := set_XoffChar 19 params in
  params.

(** The timeouts [OpenPort] installs. *)
Definition open_timeouts : COMMTIMEOUTS :=
  {| ReadIntervalTimeout := 0xFFFFFFFF;
     ReadTotalTimeoutMultiplier := 0xFFFFFFFF;
     ReadTotalTimeoutConstant := 1000;
     WriteTotalTimeoutMultiplier := 0;
     WriteTotalTimeoutConstant := 0 |}.

(** How [OpenPort] reports a failed [CreateFile]. *)
Definition open_error (err : Errno) : error :=
  if err =? ERROR_ACCESS_DENIED then SerialPortError ERROR_PORT_BUSY
  else if err =? ERROR_FILE_NOT_FOUND then SerialPortError ERROR_PORT_NOT_FOUND
  else SysError err.

(** [func OpenPort(portName string, mode *Mode)], returning the port and the error. *)
Definition OpenPort (portName : string) (mode : Mode)
  : prog (option SerialPort * option error) :=
  let portName := (backslash +:+ backslash +:+ "." +:+ backslash) +:+ portName in
  match UTF16PtrFromString portName with
  | inr err => Ret (None, Some err)
  | inl path =>
      let* r := sys (CreateFile path) in
      match r with
      | inr err => Ret (None, Some (open_error err))
      | inl h =>
          let port := {| handle := h |} in
          let* m := SetMode port mode in
          match m with
          | Some _ =>
              let* c := Close port in
              Ret (None, ERR_INVALID_PORT)
          | None =>
              let* g := sys (GetCommState (handle port)) in
              match g with
              | inr _ =>
                  let* c := Close port in
                  Ret (None, ERR_INVALID_PORT)
              | inl params =>
                  let params := apply_policy params in
                  let* s := sys (SetCommState (handle port) params) in
                  match s with
                  | Some _ =>
                      let* c := Close port in
                      Ret (None, ERR_INVALID_PORT)
                  | None =>
                      let* t := sys (SetCommTimeouts (handle port) open_timeouts) in
                      match t with
                      | Some _ =>
                          let* c := Close port in
                          Ret (None, ERR_INVALID_PORT)
                      | None => Ret (Some port, None)
                      end
                  end
              end
          end
      end
  end.

(** The [for i := range list] loop of [GetPortsList], over the indices still
    to visit ([names] is the source's [list]); [None] is the early return
    with an error. *)
Fixpoint enum_values (key : Handle) (indices : list nat) (names : list string)
  : prog (option (list string)) :=
  match indices with
  | [] => Ret (Some names)
  | i :: rest =>
      let* r := sys (RegEnumValue key (uint32 (Z.of_nat i))) in
      match r with
      | inr _ => Ret None
      | inl data =>
          enum_values key rest (<[i := UTF16ToString (buffer 1024 data)]> names)
      end
  end.

Definition SERIALCOMM : string :=
  "HARDWARE" +:+ backslash +:+ "DEVICEMAP" +:+ backslash +:+ "SERIALCOMM" +:+ backslash.

(** [func GetPortsList() ([]string, error)].  The deferred [RegCloseKey]
    runs on every return after the key was opened. *)
Definition GetPortsList : prog (option (list string) * option error) :=
  match UTF16PtrFromString SERIALCOMM with
  | inr _ => Ret (None, ERR_ENUMERATING)
  | inl subKey =>
      let* o := sys (RegOpenKeyEx subKey) in
      match o with
      | inr _ => Ret (None, ERR_ENUMERATING)
      | inl h =>
          let* res :=
            (let* q := sys (RegQueryInfoKey h) in
             match q with
             | inr _ => Ret (None, ERR_ENUMERATING)
             | inl valuesCount =>
                 let names := replicate (Z.to_nat valuesCount) EmptyString in
                 let* l := enum_values h (seq 0 (length names)) names in
                 match l with
                 | None => Ret (None, ERR_ENUMERATING)
                 | Some names => Ret (Some names, None)
                 end
             end) in
          let* c := sys (RegCloseKey h) in
          Ret res
      end
  end.

(* ===================================================================== *)
(** ** A reference machine *)
(* ===================================================================== *)

(** A small model of a Windows host with one serial device, [COM1], used to
    run the functions on concrete scenarios.  The device keeps its control
    record between opens; the system hands out the same handle value again
    after it was closed, and refuses calls on a handle that is not open. *)

(** What the next blocking read on the device meets. *)
Inductive rx_event : Type :=
| RxData (n : Z)        (* [n] bytes arrive before the timeout *)
| RxIdle                (* the timeout elapses *)
| RxError (e : Errno)   (* the read fails *)
| RxUnplug.             (* the device is removed while the read waits *)

(** The fixed behaviour of the device driver and of the registry. *)
Record Driver : Type := {
  drv_open_error : option Errno;    (* answer to opening the device *)
  drv_max_baud : Z;                 (* higher baud rates are refused *)
  drv_break_error : option Errno;   (* answer to asserting a break *)
  drv_clear_error : option Errno;   (* answer to clearing a break *)
  drv_registry : option (list (list Z))  (* data of the SERIALCOMM values *)
}.

Record Machine : Type := {
  m_driver : Driver;
  m_present : bool;                 (* the device is attached *)
  m_open : bool;                    (* the device is held by handle 4 *)
  m_dcb : DCB;
  m_timeouts : option COMMTIMEOUTS;
  m_break : bool;
  m_rx : list rx_event;
  m_get_faults : list (option Errno); (* answers of the coming record queries *)
  m_sent : list Z;
  m_clock : Z;                      (* nanoseconds slept so far *)
  m_key : bool                      (* the registry key is held by handle 8 *)
}.

Definition COM1 : Handle := 4.
Definition KEY : Handle := 8.
Definition ERROR_BAD_COMMAND : Errno := 22.
Definition ERROR_GEN_FAILURE : Errno := 31.
Definition ERROR_NO_MORE_ITEMS : Errno := 259.

Definition COM1_path : string := backslash +:+ backslash +:+ "." +:+ backslash +:+ "COM1".

Definition with_open (b : bool) (m : Machine) : Machine :=
  {| m_driver := m_driver m; m_present := m_present m; m_open := b;
     m_dcb := m_dcb m; m_timeouts := m_timeouts m; m_break := m_break m;
     m_rx := m_rx m; m_get_faults := m_get_faults m; m_sent := m_sent m;
     m_clock := m_clock m; m_key := m_key m |}.
Definition with_present (b : bool) (m : Machine) : Machine :=
  {| m_driver := m_driver m; m_present := b; m_open := m_open m;
     m_dcb := m_dcb m; m_timeouts := m_timeouts m; m_break := m_break m;
     m_rx := m_rx m; m_get_faults := m_get_faults m; m_sent := m_sent m;
     m_clock := m_clock m; m_key := m_key m |}.
Definition with_dcb (d : DCB) (m : Machine) : Machine :=
  {| m_driver := m_driver m; m_present := m_present m; m_open := m_open m;
     m_dcb := d; m_timeouts := m_timeouts m; m_break := m_break m;
     m_rx := m_rx m; m_get_faults := m_get_faults m; m_sent := m_sent m;
     m_clock := m_clock m; m_key := m_key m |}.
Definition with_timeouts (t : COMMTIMEOUTS) (m : Machine) : Machine :=
  {| m_driver := m_driver m; m_present := m_present m; m_open := m_open m;
     m_dcb := m_dcb m; m_timeouts := Some t; m_break := m_break m;
     m_rx := m_rx m; m_get_faults := m_get_faults m; m_sent := m_sent m;
     m_clock := m_clock m; m_key := m_key m |}.
Definition with_break (b : bool) (m : Machine) : Machine :=
  {| m_driver := m_driver m; m_present := m_present m; m_open := m_open m;
     m_dcb := m_dcb m; m_timeouts := m_timeouts m; m_break := b;
     m_rx := m_rx m; m_get_faults := m_get_faults m; m_sent := m_sent m;
     m_clock := m_clock m; m_key := m_key m |}.
Definition with_rx (l : list rx_event) (m : Machine) : Machine :=
  {| m_driver := m_driver m; m_present := m_present m; m_open := m_open m;
     m_dcb := m_dcb m; m_timeouts := m_timeouts m; m_break := m_break m;
     m_rx := l; m_get_faults := m_get_faults m; m_sent := m_sent m;
     m_clock := m_clock m; m_key := m_key m |}.
Definition with_get_faults (l : list (option Errno)) (m : Machine) : Machine :=
  {| m_driver := m_driver m; m_present := m_present m; m_open := m_open m;
     m_dcb := m_dcb m; m_timeouts := m_timeouts m; m_break := m_break m;
     m_rx := m_rx m; m_get_faults := l; m_sent := m_sent m;
     m_clock := m_clock m; m_key := m_key m |}.
Definition with_sent (l : list Z) (m : Machine) : Machine :=
  {| m_driver := m_driver m; m_present := m_present m; m_open := m_open m;
     m_dcb := m_dcb m; m_timeouts := m_timeouts m; m_break := m_break m;
     m_rx := m_rx m; m_get_faults := m_get_faults m; m_sent := l;
     m_clock := m_clock m; m_key := m_key m |}.
Definition with_clock (t : Z) (m : Machine) : Machine :=
  {| m_driver := m_driver m; m_present := m_present m; m_open := m_open m;
     m_dcb := m_dcb m; m_timeouts := m_timeouts m; m_break := m_break m;
     m_rx := m_rx m; m_get_faults := m_get_faults m; m_sent := m_sent m;
     m_clock := t; m_key := m_key m |}.
Definition with_key (b : bool) (m : Machine) : Machine :=
  {| m_driver := m_driver m; m_present := m_present m; m_open := m_open m;
     m_dcb := m_dcb m; m_timeouts := m_timeouts m; m_break := m_break m;
     m_rx := m_rx m; m_get_faults := m_get_faults m; m_sent := m_sent m;
     m_clock := m_clock m; m_key := b |}.

(** [h] is the open handle of the device. *)
Definition live (m : Machine) (h : Handle) : bool := m_open m && (h =? COM1).

(** [h] is the open handle of the registry key. *)
Definition live_key (m : Machine) (h : Handle) : bool := m_key m && (h =? KEY).

(** The control records the driver accepts: a baud rate it supports, 5 to 8
    data bits, a known parity and stop bit code, and a DTR control field
    other than 3, which has no meaning. *)
Definition dcb_accepted (drv : Driver) (d : DCB) : bool :=
  (0 <? BaudRate d) && (BaudRate d <=? drv_max_baud drv)
  && (5 <=? ByteSize d) && (ByteSize d <=? 8)
  && (Parity d <=? SPACEPARITY) && (StopBits d <=? TWOSTOPBITS)
  && negb (fDtrControl d =? CONTROL_TOGGLE).

(** A call that only reports success, on the device behind handle [h]. *)
Definition device_call (m : Machine) (h : Handle)
    (answer : option Errno) (next : Machine) : option Errno * Machine :=
  if negb (live m h) then (Some ERROR_INVALID_HANDLE, m)
  else if negb (m_present m) then (Some ERROR_BAD_COMMAND, m)
  else match answer with
       | Some e => (Some e, m)
       | None => (None, next)
       end.

Definition machine_call (c : call) (m : Machine) : resp c * Machine :=
  match c return resp c * Machine with
  | CreateFile path =>
      if negb (String.eqb path COM1_path) then (inr ERROR_FILE_NOT_FOUND, m)
      else if negb (m_present m) then (inr ERROR_FILE_NOT_FOUND, m)
      else if m_open m then (inr ERROR_ACCESS_DENIED, m)
      else match drv_open_error (m_driver m) with
           | Some e => (inr e, m)
           | None => (inl COM1, with_open true m)
           end
  | CloseHandle h =>
      if live m h then (None, with_open false m)
      else (Some ERROR_INVALID_HANDLE, m)
  | ReadFile h len =>
      if negb (live m h) then ((0, Some ERROR_INVALID_HANDLE), m)
      else if negb (m_present m) then ((0, None), m)
      else match m_rx m with
           | [] => ((0, None), m)
           | RxIdle :: rest => ((0, None), with_rx rest m)
           | RxData n :: rest =>
               ((Z.min n (Z.of_nat len), None), with_rx rest m)
           | RxError e :: rest => ((0, Some e), with_rx rest m)
           | RxUnplug :: rest => ((0, None), with_present false (with_rx rest m))
           end
  | WriteFile h p =>
      if negb (live m h) then ((0, Some ERROR_INVALID_HANDLE), m)
      else if negb (m_present m) then ((0, Some ERROR_BAD_COMMAND), m)
      else ((Z.of_nat (length p), None), with_sent (m_sent m ++ p) m)
  | GetCommState h =>
      if negb (live m h) then (inr ERROR_INVALID_HANDLE, m)
      else if negb (m_present m) then (inr ERROR_BAD_COMMAND, m)
      else match m_get_faults m with
           | Some e :: rest => (inr e, with_get_faults rest m)
           | None :: rest => (inl (m_dcb m), with_get_faults rest m)
           | [] => (inl (m_dcb m), m)
           end
  | SetCommState h dcb =>
      device_call m h
        (if dcb_accepted (m_driver m) dcb then None
         else Some ERROR_INVALID_PARAMETER)
        (with_dcb dcb m)
  | SetCommTimeouts h t => device_call m h None (with_timeouts t m)
  | SetCommBreak h =>
      device_call m h (drv_break_error (m_driver m)) (with_break true m)
  | ClearCommBreak h =>
      device_call m h (drv_clear_error (m_driver m)) (with_break false m)
  | Sleep d => (tt, with_clock (m_clock m + Z.max 0 d) m)
  | RegOpenKeyEx subKey =>
      match drv_registry (m_driver m) with
      | Some _ =>
          if String.eqb subKey SERIALCOMM then (inl KEY, with_key true m)
          else (inr ERROR_FILE_NOT_FOUND, m)
      | None => (inr ERROR_FILE_NOT_FOUND, m)
      end
  | RegQueryInfoKey h =>
      match drv_registry (m_driver m) with
      | Some values =>
          if live_key m h then (inl (Z.of_nat (length values)), m)
          else (inr ERROR_INVALID_HANDLE, m)
      | None => (inr ERROR_INVALID_HANDLE, m)
      end
  | RegEnumValue h index =>
      match drv_registry (m_driver m) with
      | Some values =>
          if live_key m h then
            match values !! Z.to_nat index with
            | Some data => (inl data, m)
            | None => (inr ERROR_NO_MORE_ITEMS, m)
            end
          else (inr ERROR_INVALID_HANDLE, m)
      | None => (inr ERROR_INVALID_HANDLE, m)
      end
  | RegCloseKey h =>
      if live_key m h then (None, with_key false m)
      else (Some ERROR_INVALID_HANDLE, m)
  end.

Definition Windows : OS := {| world := Machine; syscall := machine_call |}.

(** A well behaved driver with two registered ports, [COM1] and [COM3]. *)
Definition good_driver : Driver :=
  {| drv_open_error := None;
     drv_max_baud := 115200;
     drv_break_error := None;
     drv_clear_error := None;
     drv_registry := Some [[67; 79; 77; 49; 0]; [67; 79; 77; 51; 0]] |}.

(** The control record of a freshly installed port: 9600 8N1, binary mode,
    DTR and RTS enabled. *)
Definition default_dcb : DCB :=
  {| DCBlength := 28; BaudRate := 9600; Flags := 0x1011; wReserved := 0;
     XonLim := 2048; XoffLim := 512; ByteSize := 8; Parity := 0; StopBits := 0;
     XonChar := 17; XoffChar := 19; ErrorChar := 0; EofChar := 0; EvtChar := 0;
     wReserved1 := 0 |}.

(** The machine after boot: the driver, the control record the device was
    left with, what the coming reads meet and how the coming record queries
    are answered. *)
Definition boot (drv : Driver) (dcb : DCB) (rx : list rx_event)
    (faults : list (option Errno)) : Machine :=
  {| m_driver := drv; m_present := true; m_open := false; m_dcb := dcb;
     m_timeouts := None; m_break := false; m_rx := rx; m_get_faults := faults;
     m_sent := []; m_clock := 0; m_key := false |}.

Definition mode_9600_8N1 : Mode :=
  {| mode_BaudRate := 9600; mode_DataBits := 8; mode_Parity := NOPARITY;
     mode_StopBits := ONESTOPBIT |}.

Definition mode_default : Mode :=
  {| mode_BaudRate := 0; mode_DataBits := 0; mode_Parity := NOPARITY;
     mode_StopBits := ONESTOPBIT |}.

(** The port object of the reference machine, and the machine with the
    device already held through it. *)
Definition port4 : SerialPort := {| handle := COM1 |}.

Definition opened (drv : Driver) (dcb : DCB) (rx : list rx_event)
    (faults : list (option Errno)) : Machine :=
  with_open true (boot drv dcb rx faults).

(** A mode asking for a baud rate the driver of the reference machine does
    not support. *)
Definition mode_fast : Mode :=
  {| mode_BaudRate := 1000000; mode_DataBits := 8; mode_Parity := NOPARITY;
     mode_StopBits := ONESTOPBIT |}.

(** A driver that cannot open its device. *)
Definition broken_driver : Driver :=
  {| drv_open_error := Some ERROR_GEN_FAILURE;
     drv_max_baud := 115200;
     drv_break_error := None;
     drv_clear_error := None;
     drv_registry := None |}.

(** The control record a program using RTS handshaking leaves behind:
    [default_dcb] with [fRtsControl] set to handshake. *)
Definition handshake_dcb : DCB := set_Flags 0x2011 default_dcb.

(** Drivers that cannot assert, or cannot clear, a break. *)
Definition no_break_driver : Driver :=
  {| drv_open_error := None;
     drv_max_baud := 115200;
     drv_break_error := Some ERROR_GEN_FAILURE;
     drv_clear_error := None;
     drv_registry := None |}.

Definition no_clear_driver : Driver :=
  {| drv_open_error := None;
     drv_max_baud := 115200;
     drv_break_error := None;
     drv_clear_error := Some ERROR_GEN_FAILURE;
     drv_registry := None |}.

(** A port is opened and closed, the device is opened again, and two bytes
    are then written through the first, closed, port object.  The result is
    what [Close] and that [Write] returned. *)
Definition write_after_close : prog (option (option error * (Z * option error))) :=
  let* o := OpenPort "COM1" mode_default in
  match o.1 with
  | None => Ret None
  | Some port =>
      let* c := Close port in
      let* o' := OpenPort "COM1" mode_default in
      let* r := Write port [65; 66] in
      Ret (Some (c, r))
  end.

(** A registry that loses its second value between the query and the
    enumeration (a port is removed meanwhile): the key reports two values,
    the first can be read, the second is gone.  It has no state. *)
Definition shrinking_registry_call (c : call) (w : unit) : resp c * unit :=
  match c return resp c * unit with
  | RegOpenKeyEx _ => (inl KEY, w)
  | RegQueryInfoKey _ => (inl 2, w)
  | RegEnumValue _ index =>
      if index =? 0 then (inl [67; 79; 77; 49; 0], w)
      else (inr ERROR_NO_MORE_ITEMS, w)
  | RegCloseKey _ => (None, w)
  | CreateFile _ => (inr ERROR_FILE_NOT_FOUND, w)
  | GetCommState _ => (inr ERROR_INVALID_HANDLE, w)
  | ReadFile _ _ | WriteFile _ _ => ((0, Some ERROR_INVALID_HANDLE), w)
  | CloseHandle _ | SetCommState _ _ | SetCommTimeouts _ _ | SetCommBreak _
  | ClearCommBreak _ => (Some ERROR_INVALID_HANDLE, w)
  | Sleep _ => (tt, w)
  end.

Definition shrinking_registry : OS :=
  {| world := unit; syscall := shrinking_registry_call |}.

(** 115200 baud, 8 data bits, even parity, two stop bits. *)
Definition mode_115200_8E2 : Mode :=
  {| mode_BaudRate := 115200; mode_DataBits := 8; mode_Parity := EVENPARITY;
     mode_StopBits := TWOSTOPBITS |}.

(** A device left at 19200 baud with 7 data bits, and a mode asking for 264
    data bits. *)
Definition seven_bit_dcb : DCB := set_BaudRate 19200 (set_ByteSize 7 default_dcb).

Definition mode_264_bits : Mode :=
  {| mode_BaudRate := 9600; mode_DataBits := 264; mode_Parity := NOPARITY;
     mode_StopBits := ONESTOPBIT |}.

(** The failure exit shared by the configuration steps of [OpenPort]. *)
Definition close_and_fail (os : OS) (h : Handle) (t : list event) (w : world os)
  : (option SerialPort * option error) * list event * world os :=
  let '(c, w') := syscall os (CloseHandle h) w in
  ((None, ERR_INVALID_PORT), t ++ [Ev (CloseHandle h) c], w').

(** The control record a program using DTR handshaking leaves behind:
    [default_dcb] with [fDtrControl] set to handshake. *)
Definition dtr_handshake_dcb : DCB := set_Flags 0x1021 default_dcb.

(** A driver whose registry key exists and holds no value. *)
Definition empty_registry_driver : Driver :=
  {| drv_open_error := None;
     drv_max_baud := 115200;
     drv_break_error := None;
     drv_clear_error := None;
     drv_registry := Some [] |}.

(* ===================================================================== *)
(** ** Further observations on traces *)
(* ===================================================================== *)

(** The event is a call on the handle [h], or a sleep: what an operation on
    a port with that handle may do. *)
Definition on_handle (h : Handle) (e : event) : bool :=
  match e with
  | Ev (CloseHandle h') _ => h' =? h
  | Ev (Sleep _) _ => true
  | Ev c _ => match device c with
              | Some h' => h' =? h
              | None => false
              end
  end.

(** The answer of a [ReadFile] event. *)
Definition read_answer (e : event) : option (Z * option Errno) :=
  match e with
  | Ev c r =>
      match c return resp c -> option (Z * option Errno) with
      | ReadFile _ _ => fun r => Some r
      | _ => fun _ => None
      end r
  end.

(** The answer of a [SetCommState] event. *)
Definition write_answer (e : event) : option (option Errno) :=
  match e with
  | Ev c r =>
      match c return resp c -> option (option Errno) with
      | SetCommState _ _ => fun r => Some r
      | _ => fun _ => None
      end r
  end.

(** An event of a probe round of [Read] that lets the loop go on: a read
    that came back without error and without bytes (the count is a
    [uint32], so not positive is 0), a fetch of the control record, whatever
    its answer, or a write of the control record that succeeded. *)
Definition probe_round (h : Handle) (e : event) : bool :=
  match e with
  | Ev (ReadFile h' _) _ =>
      (h' =? h) && match read_answer e with
                   | Some (n, None) => n <=? 0
                   | _ => false
                   end
  | Ev (GetCommState h') _ => h' =? h
  | Ev (SetCommState h' _) _ =>
      (h' =? h) && match write_answer e with
                   | Some None => true
                   | _ => false
                   end
  | _ => false
  end.

(** The indices of the [RegEnumValue] calls of a trace, in order. *)
Definition enum_index (e : event) : option Z :=
  match e with
  | Ev (RegEnumValue _ index) _ => Some index
  | _ => None
  end.

Fixpoint enum_indices (t : list event) : list Z :=
  match t with
  | [] => []
  | e :: t' =>
      match enum_index e with
      | Some index => index :: enum_indices t'
      | None => enum_indices t'
      end
  end.

(** The index of a [RegEnumValue] event and whether the call succeeded. *)
Definition enum_request (e : event) : option (Z * bool) :=
  match e with
  | Ev c r =>
      match c return resp c -> option (Z * bool) with
      | RegEnumValue _ index =>
          fun r => Some (index, match r with inl _ => true | inr _ => false end)
      | _ => fun _ => None
      end r
  end.

(** The requests for values of a trace, in order. *)
Fixpoint enum_requests (t : list event) : list (Z * bool) :=
  match t with
  | [] => []
  | e :: t' =>
      match enum_request e with
      | Some q => q :: enum_requests t'
      | None => enum_requests t'
      end
  end.

(** How many times a trace closes the registry key [key]. *)
Fixpoint key_closes (key : Handle) (t : list event) : nat :=
  match t with
  | [] => 0%nat
  | Ev (RegCloseKey key') _ :: t' =>
      ((if Z.eqb key' key then 1 else 0) + key_closes key t')%nat
  | _ :: t' => key_closes key t'
  end.

(** The error is a platform error number, not a [SerialPortError]. *)
Definition is_raw (e : error) : bool :=
  match e with
  | SysError _ => true
  | SerialPortError _ => false
  end.

(** The UTF-16 code units of an ASCII string. *)
Fixpoint units_of_string (s : string) : list Z :=
  match s with
  | EmptyString => []
  | String c s' => Z.of_N (Ascii.N_of_ascii c) :: units_of_string s'
  end.

(** The string holds only ASCII characters other than NUL. *)
Fixpoint is_ascii_name (s : string) : bool :=
  match s with
  | EmptyString => true
  | String c s' =>
      (0 <? Z.of_N (Ascii.N_of_ascii c)) && (Z.of_N (Ascii.N_of_ascii c) <? 0x80)
      && is_ascii_name s'
  end.

(** The registry key of the reference machine is open and its values are
    the terminated names of [stored]. *)
Definition registry_holds (stored : list string) (m : Machine) : Prop :=
  m_key m = true
  /\ drv_registry (m_driver m) =
     Some (map (fun name => units_of_string name ++ [0]) stored).

(** The device of the reference machine is open and attached, nothing is
    arriving, no fault is pending, and its control record is one the driver
    accepts. *)
Definition quiet (m : Machine) : Prop :=
  m_open m = true /\ m_present m = true /\ m_rx m = [] /\ m_get_faults m = []
  /\ dcb_accepted (m_driver m) (m_dcb m) = true.

(* ===================================================================== *)
(** ** Running programs *)
(* ===================================================================== *)

Lemma run_bind {A B : Type} (os : OS) (p : prog A) (f : A -> prog B) (w : world os) :
  run os (bind p f) w =
  let '(a, t1, w1) := run os p w in
  let '(b, t2, w2) := run os (f a) w1 in
  (b, t1 ++ t2, w2).
Proof.
  revert w. induction p as [a | c k IH]; intros w; simpl.
  - destruct (run os (f a) w) as [[b t] w2]. reflexivity.
  - destruct (syscall os c w) as [r w1]. rewrite IH.
    destruct (run os (k r) w1) as [[a t1] w1'].
    destruct (run os (f a) w1') as [[b t2] w2]. reflexivity.
Qed.

Lemma run_Close (os : OS) (port : SerialPort) (w : world os) :
  run os (Close port) w =
  let '(r, w1) := syscall os (CloseHandle (handle port)) w in
  (as_error r, [Ev (CloseHandle (handle port)) r], w1).
Proof. simpl. destruct (syscall os _ w) as [r w1]. reflexivity. Qed.

Lemma closes_app (h : Handle) (t1 t2 : list event) :
  closes h (t1 ++ t2) = (closes h t1 + closes h t2)%nat.
Proof.
  induction t1 as [| e t1 IH]; simpl; [reflexivity |].
  rewrite IH. lia.
Qed.

(** One blocking read of the loop of [Read] and what follows it. *)
Lemma Read_loop_step (os : OS) (fuel : nat) (port : SerialPort) (len : nat)
    (params : DCB) (w : world os) :
  run os (Read_loop (S fuel) port len params) w =
  let '(r, w1) := syscall os (ReadFile (handle port) len) w in
  let read := Ev (ReadFile (handle port) len) r in
  match r.2 with
  | Some err => (Some (r.1, Some (SysError err)), [read], w1)
  | None =>
      if 0 <? r.1 then (Some (r.1, None), [read], w1)
      else
        let '(g, w2) := syscall os (GetCommState (handle port)) w1 in
        let params' := match g with inl d => d | inr _ => params end in
        let '(s, w3) := syscall os (SetCommState (handle port) params') w2 in
        let probe := [read; Ev (GetCommState (handle port)) g;
                      Ev (SetCommState (handle port) params') s] in
        match s with
        | Some err =>
            let '(c, w4) := syscall os (CloseHandle (handle port)) w3 in
            (Some (0, Some (SysError err)),
             probe ++ [Ev (CloseHandle (handle port)) c], w4)
        | None =>
            let '(a, t, w4) := run os (Read_loop fuel port len params') w3 in
            (a, probe ++ t, w4)
        end
  end.
Proof.
  simpl. destruct (syscall os (ReadFile _ _) w) as [[n e] w1]. simpl.
  destruct e as [err |]; [reflexivity |].
  destruct (0 <? n); [reflexivity |]. simpl.
  destruct (syscall os (GetCommState _) w1) as [g w2].
  destruct (syscall os (SetCommState _ _) w2) as [s w3].
  destruct s as [err |]; simpl.
  - destruct (syscall os (CloseHandle _) w3) as [c w4]. reflexivity.
  - destruct (run os _ w3) as [[a t] w4]. reflexivity.
Qed.

(** A successful return of the loop of [Read] carries a positive count. *)
Lemma Read_loop_positive (os : OS) (fuel : nat) (port : SerialPort) (len : nat) :
  forall (params : DCB) (w : world os) (n : Z),
    result (run os (Read_loop fuel port len params) w) = Some (n, None) -> 0 < n.
Proof.
  induction fuel as [| fuel IH]; intros params w n.
  - simpl. discriminate.
  - rewrite Read_loop_step.
    destruct (syscall os (ReadFile _ _) w) as [[k e] w1]. simpl.
    destruct e as [err |]; [discriminate |].
    destruct (0 <? k) eqn:Hk.
    + intros H. injection H as <-. apply Z.ltb_lt. exact Hk.
    + destruct (syscall os (GetCommState _) w1) as [g w2].
      destruct (syscall os (SetCommState _ _) w2) as [s w3].
      destruct s as [err |].
      * destruct (syscall os (CloseHandle _) w3) as [c w4]. discriminate.
      * specialize (IH (match g with inl d => d | inr _ => params end) w3 n).
        destruct (run os _ w3) as [[a t] w4]. exact IH.
Qed.

(** The bound on the loop of [Read] is immaterial: a run that returns within
    [fuel] blocking reads is the same run under any larger bound. *)
Lemma Read_loop_more_fuel (os : OS) (port : SerialPort) (len : nat) (fuel : nat) :
  forall (fuel' : nat) (params : DCB) (w : world os),
    (fuel <= fuel')%nat ->
    result (run os (Read_loop fuel port len params) w) <> None ->
    run os (Read_loop fuel' port len params) w =
    run os (Read_loop fuel port len params) w.
Proof.
  induction fuel as [| fuel IH]; intros fuel' params w Hle Hres.
  - exfalso. apply Hres. reflexivity.
  - destruct fuel' as [| fuel']; [lia |].
    rewrite !Read_loop_step. rewrite Read_loop_step in Hres.
    destruct (syscall os (ReadFile _ _) w) as [[k e] w1]. simpl in *.
    destruct e as [err |]; [reflexivity |].
    destruct (0 <? k); [reflexivity |].
    destruct (syscall os (GetCommState _) w1) as [g w2].
    destruct (syscall os (SetCommState _ _) w2) as [s w3].
    destruct s as [err |]; [reflexivity |].
    rewrite (IH fuel'); [reflexivity | lia |].
    destruct (run os (Read_loop fuel port len _) w3) as [[a t] w4].
    exact Hres.
Qed.

(* ===================================================================== *)
(** ** Transfer engine: [Read] *)
(* ===================================================================== *)

(** C2.  In every blocking read of [Read] (the loop of [Read] from any state
    of its locals; [Read] itself starts it from the zero record): a read
    that fails makes [Read] return its count and that error at once, with no
    further call (no retry, no close); a read that succeeds with more than 0
    bytes makes [Read] return that count without error; whenever [Read]
    returns without error the count is positive, so it never returns
    (0, nil); and a read that succeeds without bytes (the count is a
    [uint32], so not positive is 0) while the device is alive, that is, the
    write-back of the probe succeeds, makes [Read] retry: it goes on as the
    same loop from the state the probe left, and its next call is the next
    blocking read. *)
Theorem Read_returns (os : OS) (port : SerialPort) (len : nat) (fuel : nat)
    (params : DCB) (w : world os) :
  (forall n err w1,
      syscall os (ReadFile (handle port) len) w = ((n, Some err), w1) ->
      run os (Read_loop (S fuel) port len params) w =
      (Some (n, Some (SysError err)),
       [Ev (ReadFile (handle port) len) (n, Some err)], w1))
  /\ (forall n w1,
      syscall os (ReadFile (handle port) len) w = ((n, None), w1) ->
      0 < n ->
      run os (Read_loop (S fuel) port len params) w =
      (Some (n, None), [Ev (ReadFile (handle port) len) (n, None)], w1))
  /\ (forall n,
      result (run os (Read_loop fuel port len params) w) = Some (n, None) ->
      0 < n)
  /\ (forall n w1 g w2 w3,
      syscall os (ReadFile (handle port) len) w = ((n, None), w1) ->
      n <= 0 ->
      syscall os (GetCommState (handle port)) w1 = (g, w2) ->
      syscall os (SetCommState (handle port)
                    (match g with inl d => d | inr _ => params end)) w2
      = (None, w3) ->
      run os (Read_loop (S fuel) port len params) w =
      (let '(a, t, w4) :=
         run os (Read_loop fuel port len
                   (match g with inl d => d | inr _ => params end)) w3 in
       (a,
        [Ev (ReadFile (handle port) len) (n, None);
         Ev (GetCommState (handle port)) g;
         Ev (SetCommState (handle port)
               (match g with inl d => d | inr _ => params end)) None] ++ t,
        w4))
      /\ exists r rest,
          (syscall os (ReadFile (handle port) len) w3).1 = r
          /\ trace (run os (Read_loop (S (S fuel)) port len params) w) =
             [Ev (ReadFile (handle port) len) (n, None);
              Ev (GetCommState (handle port)) g;
              Ev (SetCommState (handle port)
                    (match g with inl d => d | inr _ => params end)) None;
              Ev (ReadFile (handle port) len) r] ++ rest).
Proof.
  split; [| split; [| split]].
  - intros n err w1 H. rewrite Read_loop_step, H. reflexivity.
  - intros n w1 H Hn. rewrite Read_loop_step, H. simpl.
    apply Z.ltb_lt in Hn. rewrite Hn. reflexivity.
  - apply Read_loop_positive.
  - intros n w1 g w2 w3 Hr Hn Hg Hs.
    assert (Hstep : forall k,
               run os (Read_loop (S k) port len params) w =
               (let '(a, t, w4) :=
                  run os (Read_loop k port len
                            (match g with inl d => d | inr _ => params end)) w3 in
                (a,
                 [Ev (ReadFile (handle port) len) (n, None);
                  Ev (GetCommState (handle port)) g;
                  Ev (SetCommState (handle port)
                        (match g with inl d => d | inr _ => params end)) None] ++ t,
                 w4))).
    { intros k. rewrite Read_loop_step, Hr. cbn [fst snd].
      apply Z.ltb_ge in Hn. rewrite Hn, Hg, Hs. reflexivity. }
    split; [apply Hstep |].
    rewrite (Hstep (S fuel)).
    pose proof (Read_loop_step os fuel port len
                  (match g with inl d => d | inr _ => params end) w3) as Hnext.
    destruct (run os (Read_loop (S fuel) port len _) w3) as [[a t] w4].
    destruct (syscall os (ReadFile (handle port) len) w3) as [[k e] w4'].
    exists (k, e). cbn [fst snd] in *. unfold trace. cbn [fst snd].
    destruct e as [err |].
    { injection Hnext as _ -> _. eexists. split; reflexivity. }
    destruct (0 <? k).
    { injection Hnext as _ -> _. eexists. split; reflexivity. }
    destruct (syscall os (GetCommState _) w4') as [g' w5].
    destruct (syscall os (SetCommState _ _) w5) as [s' w6].
    destruct s' as [err |].
    { destruct (syscall os (CloseHandle _) w6) as [c w7].
      injection Hnext as _ -> _. eexists. split; reflexivity. }
    destruct (run os (Read_loop fuel port len _) w6) as [[a' t'] w7].
    injection Hnext as _ -> _. eexists. split; reflexivity.
Qed.

(** On the reference machine: a read that fails, a read of three bytes, and
    an empty read on the attached device followed by a read of three bytes,
    which [Read] returns after retrying. *)
Lemma Read_returns_witness :
  run Windows (Read 1 port4 16)
      (opened good_driver default_dcb [RxError ERROR_GEN_FAILURE] []) =
  (Some (0, Some (SysError ERROR_GEN_FAILURE)),
   [Ev (ReadFile COM1 16) (0, Some ERROR_GEN_FAILURE)],
   opened good_driver default_dcb [] [])
  /\ run Windows (Read 1 port4 16)
      (opened good_driver default_dcb [RxData 3] []) =
     (Some (3, None), [Ev (ReadFile COM1 16) (3, None)],
      opened good_driver default_dcb [] [])
  /\ 0 < 3
  /\ run Windows (Read 2 port4 16)
       (opened good_driver default_dcb [RxIdle; RxData 3] []) =
     (Some (3, None),
      [Ev (ReadFile COM1 16) (0, None);
       Ev (GetCommState COM1) (inl default_dcb);
       Ev (SetCommState COM1 default_dcb) None;
       Ev (ReadFile COM1 16) (3, None)],
      opened good_driver default_dcb [] []).
Proof.
  split; [| split; [| split]].
  - apply (proj1 (Read_returns Windows port4 16 0 DCB_zero
                    (opened good_driver default_dcb [RxError ERROR_GEN_FAILURE] []))).
    reflexivity.
  - apply (proj1 (proj2 (Read_returns Windows port4 16 0 DCB_zero
                    (opened good_driver default_dcb [RxData 3] [])))).
    + reflexivity.
    + lia.
  - apply (proj2 (proj2 (Read_returns Windows port4 16 2 DCB_zero
                    (opened good_driver default_dcb [RxIdle; RxData 3] [])))).
    vm_compute. reflexivity.
  - destruct (proj2 (proj2 (proj2 (Read_returns Windows port4 16 1 DCB_zero
                (opened good_driver default_dcb [RxIdle; RxData 3] []))))
                0 (opened good_driver default_dcb [RxData 3] [])
                (inl default_dcb)
                (opened good_driver default_dcb [RxData 3] [])
                (opened good_driver default_dcb [RxData 3] [])
                eq_refl (Z.le_refl 0) eq_refl eq_refl) as [Heq _].
    unfold Read. rewrite Heq. reflexivity.
Defined.

(** C1, as the code has it.  When a blocking read of [Read] succeeds with 0
    bytes, [Read] calls [GetCommState] and, whatever it answers, calls
    [SetCommState] with the record buffer: the record just fetched,
    unchanged, when the fetch succeeded, and the buffer as the previous
    iteration left it when the fetch failed.  Only the answer of
    [SetCommState] counts: if it fails, [Read] closes the handle and returns
    0 and that error; if it succeeds, [Read] goes on with the next blocking
    read. *)
Theorem Read_idle_probe (os : OS) (port : SerialPort) (len : nat) (fuel : nat)
    (params : DCB) (w w1 w2 w3 : world os) (g : DCB + Errno) (s : option Errno) :
  syscall os (ReadFile (handle port) len) w = ((0, None), w1) ->
  syscall os (GetCommState (handle port)) w1 = (g, w2) ->
  let record := match g with inl d => d | inr _ => params end in
  syscall os (SetCommState (handle port) record) w2 = (s, w3) ->
  let probe := [Ev (ReadFile (handle port) len) (0, None);
                Ev (GetCommState (handle port)) g;
                Ev (SetCommState (handle port) record) s] in
  match s with
  | Some err =>
      exists c w4,
        syscall os (CloseHandle (handle port)) w3 = (c, w4) /\
        run os (Read_loop (S fuel) port len params) w =
        (Some (0, Some (SysError err)),
         probe ++ [Ev (CloseHandle (handle port)) c], w4)
  | None =>
      run os (Read_loop (S fuel) port len params) w =
      let '(a, t, w4) := run os (Read_loop fuel port len record) w3 in
      (a, probe ++ t, w4)
  end.
Proof.
  intros Hr Hg record Hs probe.
  rewrite Read_loop_step, Hr. simpl. rewrite Hg. fold record. rewrite Hs.
  destruct s as [err |].
  - destruct (syscall os (CloseHandle _) w3) as [c w4] eqn:Hc.
    exists c, w4. split; reflexivity.
  - reflexivity.
Qed.

(** The device is removed during an idle read: the probe fails, the handle
    is closed and the error of [SetCommState] is returned. *)
Lemma Read_idle_probe_witness :
  exists c w4,
    syscall Windows (CloseHandle COM1)
      (with_present false (opened good_driver default_dcb [] [])) = (c, w4) /\
    run Windows (Read 1 port4 16) (opened good_driver default_dcb [RxUnplug] []) =
    (Some (0, Some (SysError ERROR_BAD_COMMAND)),
     [Ev (ReadFile COM1 16) (0, None);
      Ev (GetCommState COM1) (inr ERROR_BAD_COMMAND);
      Ev (SetCommState COM1 DCB_zero) (Some ERROR_BAD_COMMAND)]
     ++ [Ev (CloseHandle COM1) c], w4).
Proof.
  apply (Read_idle_probe Windows port4 16 0 DCB_zero
           (opened good_driver default_dcb [RxUnplug] [])
           (with_present false (opened good_driver default_dcb [] []))
           (with_present false (opened good_driver default_dcb [] []))
           (with_present false (opened good_driver default_dcb [] []))
           (inr ERROR_BAD_COMMAND) (Some ERROR_BAD_COMMAND));
    reflexivity.
Defined.

(** C1, as stated, fails: the second probe of this call cannot fetch the
    control record, so the round trip of fetching and writing back fails;
    yet [Read] writes the record of the probe before, does not close the
    handle, and goes on to return 3 bytes without error. *)
Lemma Read_ignores_failed_fetch :
  let w := opened good_driver default_dcb [RxIdle; RxIdle; RxData 3]
                  [None; Some ERROR_GEN_FAILURE] in
  let r := run Windows (Read 3 port4 16) w in
  result r = Some (3, None)
  /\ trace r =
     [Ev (ReadFile COM1 16) (0, None);
      Ev (GetCommState COM1) (inl default_dcb);
      Ev (SetCommState COM1 default_dcb) None;
      Ev (ReadFile COM1 16) (0, None);
      Ev (GetCommState COM1) (inr ERROR_GEN_FAILURE);
      Ev (SetCommState COM1 default_dcb) None;
      Ev (ReadFile COM1 16) (3, None)]
  /\ closes COM1 (trace r) = 0%nat
  /\ m_open (final r) = true.
Proof. vm_compute. repeat split; reflexivity. Qed.

(** On an idle line with the device attached, [Read] has not returned after
    any number of blocking reads: it keeps retrying. *)
Lemma Read_idle_line_loops (fuel : nat) :
  forall params : DCB,
    result (run Windows (Read_loop fuel port4 16 params)
              (opened good_driver default_dcb [] [])) = None.
Proof.
  induction fuel as [| fuel IH]; intros params; [reflexivity |].
  rewrite Read_loop_step.
  change (syscall Windows (ReadFile (handle port4) 16)
            (opened good_driver default_dcb [] []))
    with ((0, @None Errno), opened good_driver default_dcb [] []).
  cbn beta iota zeta delta [fst snd].
  change (0 <? 0) with false. cbn iota.
  change (syscall Windows (GetCommState (handle port4))
            (opened good_driver default_dcb [] []))
    with (@inl DCB Errno default_dcb, opened good_driver default_dcb [] []).
  cbn beta iota zeta.
  change (syscall Windows (SetCommState (handle port4) default_dcb)
            (opened good_driver default_dcb [] []))
    with (@None Errno, opened good_driver default_dcb [] []).
  cbn beta iota zeta.
  specialize (IH default_dcb).
  destruct (run Windows (Read_loop fuel port4 16 default_dcb) _) as [[a t] w4].
  exact IH.
Qed.

(** A write of two bytes that the device accepts returns 2 and no error. *)
Lemma Write_two_bytes :
  run Windows (Write port4 [0x41; 0x42]) (opened good_driver default_dcb [] []) =
  ((2, None), [Ev (WriteFile COM1 [0x41; 0x42]) (2, None)],
   with_sent [0x41; 0x42] (opened good_driver default_dcb [] [])).
Proof. reflexivity. Qed.

(* ===================================================================== *)
(** ** Control block translator: [SetMode] *)
(* ===================================================================== *)

(** The run of [SetMode], call by call. *)
Lemma run_SetMode (os : OS) (port : SerialPort) (mode : Mode) (w : world os) :
  run os (SetMode port mode) w =
  let h := handle port in
  let '(g, w1) := syscall os (GetCommState h) w in
  match g with
  | inr e =>
      let '(c, w2) := syscall os (CloseHandle h) w1 in
      (ERR_INVALID_PORT, [Ev (GetCommState h) (inr e); Ev (CloseHandle h) c], w2)
  | inl d =>
      let '(s, w2) := syscall os (SetCommState h (apply_mode mode d)) w1 in
      match s with
      | Some e =>
          let '(c, w3) := syscall os (CloseHandle h) w2 in
          (ERR_INVALID_PORT,
           [Ev (GetCommState h) (inl d);
            Ev (SetCommState h (apply_mode mode d)) (Some e);
            Ev (CloseHandle h) c], w3)
      | None =>
          (None,
           [Ev (GetCommState h) (inl d);
            Ev (SetCommState h (apply_mode mode d)) None], w2)
      end
  end.
Proof.
  simpl. destruct (syscall os (GetCommState _) w) as [[d | e] w1]; simpl.
  - destruct (syscall os (SetCommState _ _) w1) as [[e |] w2]; simpl.
    + destruct (syscall os (CloseHandle _) w2) as [c w3]. reflexivity.
    + reflexivity.
  - destruct (syscall os (CloseHandle _) w1) as [c w2]. reflexivity.
Qed.

(** C3, as the code has it.  The record [SetMode] passes to [SetCommState]
    is the record it fetched with four fields assigned: the baud rate is
    9600 when [BaudRate] is 0 and [uint32(BaudRate)] otherwise; the byte
    size is 8 when [DataBits] is 0 and [byte(DataBits)] otherwise; the stop
    bit and parity codes are [byte(StopBits)] and [byte(Parity)].  These
    conversions keep the low 32 and 8 bits, that is the value modulo 2^32
    and 2^8: the field of the Mode itself when it lies from 0 up to that
    bound, and a wrapped value otherwise, for a negative one too.  All the
    other fields are the fetched ones. *)
Theorem SetMode_record (os : OS) (port : SerialPort) (mode : Mode)
    (w w1 : world os) (d : DCB) :
  syscall os (GetCommState (handle port)) w = (inl d, w1) ->
  exists d' s rest,
    trace (run os (SetMode port mode) w) =
    Ev (GetCommState (handle port)) (inl d)
      :: Ev (SetCommState (handle port) d') s :: rest
    /\ BaudRate d' =
       (if mode_BaudRate mode =? 0 then 9600 else mode_BaudRate mode mod 2 ^ 32)
    /\ ByteSize d' =
       (if mode_DataBits mode =? 0 then 8 else mode_DataBits mode mod 2 ^ 8)
    /\ StopBits d' = mode_StopBits mode mod 2 ^ 8
    /\ Parity d' = mode_Parity mode mod 2 ^ 8
    /\ (0 < mode_BaudRate mode < 2 ^ 32 -> BaudRate d' = mode_BaudRate mode)
    /\ (0 < mode_DataBits mode < 2 ^ 8 -> ByteSize d' = mode_DataBits mode)
    /\ (0 <= mode_StopBits mode < 2 ^ 8 -> StopBits d' = mode_StopBits mode)
    /\ (0 <= mode_Parity mode < 2 ^ 8 -> Parity d' = mode_Parity mode)
    /\ DCBlength d' = DCBlength d /\ Flags d' = Flags d
    /\ wReserved d' = wReserved d /\ XonLim d' = XonLim d
    /\ XoffLim d' = XoffLim d /\ XonChar d' = XonChar d
    /\ XoffChar d' = XoffChar d /\ ErrorChar d' = ErrorChar d
    /\ EofChar d' = EofChar d /\ EvtChar d' = EvtChar d
    /\ wReserved1 d' = wReserved1 d.
Proof.
  intros Hg. rewrite run_SetMode. cbv zeta. rewrite Hg.
  destruct (syscall os (SetCommState _ _) w1) as [s w2] eqn:Hs.
  exists (apply_mode mode d), s.
  exists (match s with
          | Some _ => [Ev (CloseHandle (handle port))
                         (syscall os (CloseHandle (handle port)) w2).1]
          | None => []
          end).
  split.
  { destruct s as [e |]; [| reflexivity].
    destruct (syscall os (CloseHandle _) w2) as [c w3]. reflexivity. }
  unfold apply_mode, uint32, byte_of.
  destruct (mode_BaudRate mode =? 0) eqn:Hb;
    destruct (mode_DataBits mode =? 0) eqn:Hd; simpl;
    repeat split; try reflexivity; intros H;
    try (apply Z.eqb_eq in Hb); try (apply Z.eqb_eq in Hd);
    try lia; try (rewrite Z.mod_small; lia).
Qed.

(** On the reference machine, at a device left at 19200 baud with 7 data
    bits: a mode of 115200 baud, 8 data bits, even parity and two stop bits
    writes those four values, and the default mode writes 9600 baud and 8
    data bits; the flags are the fetched ones. *)
Lemma SetMode_record_witness :
  (exists d' s rest,
      trace (run Windows (SetMode port4 mode_115200_8E2)
               (opened good_driver seven_bit_dcb [] [])) =
      Ev (GetCommState COM1) (inl seven_bit_dcb)
        :: Ev (SetCommState COM1 d') s :: rest
      /\ BaudRate d' = 115200 /\ ByteSize d' = 8
      /\ StopBits d' = TWOSTOPBITS /\ Parity d' = EVENPARITY
      /\ Flags d' = Flags seven_bit_dcb)
  /\ (exists d' s rest,
      trace (run Windows (SetMode port4 mode_default)
               (opened good_driver seven_bit_dcb [] [])) =
      Ev (GetCommState COM1) (inl seven_bit_dcb)
        :: Ev (SetCommState COM1 d') s :: rest
      /\ BaudRate d' = 9600 /\ ByteSize d' = 8
      /\ Flags d' = Flags seven_bit_dcb).
Proof.
  split.
  - destruct (SetMode_record Windows port4 mode_115200_8E2
                (opened good_driver seven_bit_dcb [] [])
                (opened good_driver seven_bit_dcb [] []) seven_bit_dcb eq_refl)
      as (d' & s & rest & Ht & _ & _ & _ & _ & Hb & Hd & Hs & Hp & _ & Hf & _).
    exists d', s, rest. split; [exact Ht |].
    split; [apply Hb; vm_compute; split; reflexivity |].
    split; [apply Hd; vm_compute; split; reflexivity |].
    split; [apply Hs; vm_compute; split; (reflexivity || discriminate) |].
    split; [apply Hp; vm_compute; split; (reflexivity || discriminate) | exact Hf].
  - destruct (SetMode_record Windows port4 mode_default
                (opened good_driver seven_bit_dcb [] [])
                (opened good_driver seven_bit_dcb [] []) seven_bit_dcb eq_refl)
      as (d' & s & rest & Ht & Hb & Hd & _ & _ & _ & _ & _ & _ & _ & Hf & _).
    exists d', s, rest. split; [exact Ht |].
    split; [exact Hb |]. split; [exact Hd | exact Hf].
Defined.

(** C3, as stated, fails: 264 data bits are not 0, so the byte size written
    should be 264; the record written, and accepted by the device, has byte
    size 8, the low 8 bits of 264. *)
Lemma SetMode_truncates_DataBits :
  let r := run Windows (SetMode port4 mode_264_bits)
               (opened good_driver seven_bit_dcb [] []) in
  mode_DataBits mode_264_bits <> 0
  /\ result r = None
  /\ exists d',
      trace r = [Ev (GetCommState COM1) (inl seven_bit_dcb);
                 Ev (SetCommState COM1 d') None]
      /\ m_dcb (final r) = d'
      /\ ByteSize d' = 8
      /\ ByteSize d' <> mode_DataBits mode_264_bits.
Proof.
  split; [discriminate |]. split; [reflexivity |].
  exists default_dcb. repeat split; (reflexivity || discriminate).
Qed.

(* ===================================================================== *)
(** ** Port handle: [OpenPort] *)
(* ===================================================================== *)

(** The run of [OpenPort], step by step. *)
Lemma run_OpenPort (os : OS) (portName : string) (mode : Mode) (w : world os) :
  run os (OpenPort portName mode) w =
  match UTF16PtrFromString ((backslash +:+ backslash +:+ "." +:+ backslash) +:+ portName) with
  | inr err => ((None, Some err), [], w)
  | inl path =>
      let '(r, w1) := syscall os (CreateFile path) w in
      match r with
      | inr e => ((None, Some (open_error e)), [Ev (CreateFile path) (inr e)], w1)
      | inl h =>
          let opening := Ev (CreateFile path) (inl h) in
          let '(m, t1, w2) := run os (SetMode {| handle := h |} mode) w1 in
          match m with
          | Some _ => close_and_fail os h (opening :: t1) w2
          | None =>
              let '(g, w3) := syscall os (GetCommState h) w2 in
              match g with
              | inr e =>
                  close_and_fail os h
                    (opening :: t1 ++ [Ev (GetCommState h) (inr e)]) w3
              | inl d =>
                  let '(s, w4) := syscall os (SetCommState h (apply_policy d)) w3 in
                  let t2 := opening :: t1 ++
                            [Ev (GetCommState h) (inl d);
                             Ev (SetCommState h (apply_policy d)) s] in
                  match s with
                  | Some _ => close_and_fail os h t2 w4
                  | None =>
                      let '(t, w5) := syscall os (SetCommTimeouts h open_timeouts) w4 in
                      let t3 := t2 ++ [Ev (SetCommTimeouts h open_timeouts) t] in
                      match t with
                      | Some _ => close_and_fail os h t3 w5
                      | None => ((Some {| handle := h |}, None), t3, w5)
                      end
                  end
              end
          end
      end
  end.
Proof.
  unfold OpenPort, close_and_fail.
  destruct (UTF16PtrFromString _) as [path | err]; [| reflexivity].
  cbn [run bind sys].
  destruct (syscall os (CreateFile path) w) as [[h | e] w1]; [| reflexivity].
  rewrite run_bind.
  destruct (run os (SetMode _ mode) w1) as [[m t1] w2].
  destruct m as [e |]; simpl.
  { destruct (syscall os (CloseHandle h) w2) as [c w3]. reflexivity. }
  destruct (syscall os (GetCommState h) w2) as [[d | e] w3]; simpl.
  2: { destruct (syscall os (CloseHandle h) w3) as [c w4].
       rewrite <- app_assoc. reflexivity. }
  destruct (syscall os (SetCommState h _) w3) as [[e |] w4]; simpl.
  { destruct (syscall os (CloseHandle h) w4) as [c w5].
    rewrite <- app_assoc. reflexivity. }
  destruct (syscall os (SetCommTimeouts h _) w4) as [[e |] w5]; simpl.
  { destruct (syscall os (CloseHandle h) w5) as [c w6].
    rewrite <- !app_assoc. reflexivity. }
  rewrite <- !app_assoc. reflexivity.
Qed.

(** [OpenPort] returns a port or an error, never both and never neither. *)
Lemma OpenPort_port_or_error (os : OS) (portName : string) (mode : Mode)
    (w : world os) :
  (exists port, result (run os (OpenPort portName mode) w) = (Some port, None))
  \/ (exists err, result (run os (OpenPort portName mode) w) = (None, Some err)).
Proof.
  rewrite run_OpenPort. unfold close_and_fail.
  destruct (UTF16PtrFromString _) as [path | err]; [| right; eauto].
  destruct (syscall os (CreateFile path) w) as [[h | e] w1]; [| right; eauto].
  destruct (run os (SetMode _ mode) w1) as [[m t1] w2].
  destruct m as [e |].
  { destruct (syscall os (CloseHandle h) w2) as [c w3]. right. eexists. reflexivity. }
  destruct (syscall os (GetCommState h) w2) as [[d | e] w3].
  2: { destruct (syscall os (CloseHandle h) w3) as [c w4]. right. eexists. reflexivity. }
  destruct (syscall os (SetCommState h _) w3) as [[e |] w4].
  { destruct (syscall os (CloseHandle h) w4) as [c w5]. right. eexists. reflexivity. }
  destruct (syscall os (SetCommTimeouts h _) w4) as [[e |] w5].
  { destruct (syscall os (CloseHandle h) w5) as [c w6]. right. eexists. reflexivity. }
  left. eexists. reflexivity.
Qed.

(** A failing [SetMode] has closed the handle once, as its last call. *)
Lemma SetMode_failure_closes (os : OS) (port : SerialPort) (mode : Mode)
    (w : world os) (e : error) :
  result (run os (SetMode port mode) w) = Some e ->
  e = SerialPortError ERROR_INVALID_SERIAL_PORT
  /\ closes (handle port) (trace (run os (SetMode port mode) w)) = 1%nat
  /\ exists t c, trace (run os (SetMode port mode) w) =
                 t ++ [Ev (CloseHandle (handle port)) c].
Proof.
  rewrite run_SetMode. cbv zeta.
  destruct (syscall os (GetCommState _) w) as [[d | g] w1].
  - destruct (syscall os (SetCommState _ _) w1) as [[s |] w2].
    + destruct (syscall os (CloseHandle _) w2) as [c w3].
      unfold result, trace, closes. simpl. intros [= <-].
      rewrite Z.eqb_refl. simpl. split; [reflexivity |]. split; [reflexivity |].
      exists [Ev (GetCommState (handle port)) (inl d);
              Ev (SetCommState (handle port) (apply_mode mode d)) (Some s)], c.
      reflexivity.
    + discriminate.
  - destruct (syscall os (CloseHandle _) w1) as [c w2].
    unfold result, trace, closes. simpl. intros [= <-].
    rewrite Z.eqb_refl. simpl. split; [reflexivity |]. split; [reflexivity |].
    exists [Ev (GetCommState (handle port)) (inr g)], c. reflexivity.
Qed.

(** C4, as the code has it.  When the device handle is acquired and
    [SetMode] then fails, [OpenPort] closes the handle as its last call and
    returns no port and the error code [ERROR_INVALID_SERIAL_PORT], the code
    [SendBreak] reports too; and every call of [OpenPort] returns either a
    port without error or an error without port. *)
Theorem OpenPort_failed_SetMode (os : OS) (portName : string) (mode : Mode)
    (w : world os) :
  (forall path h w1 e,
      UTF16PtrFromString ((backslash +:+ backslash +:+ "." +:+ backslash) +:+ portName)
      = inl path ->
      syscall os (CreateFile path) w = (inl h, w1) ->
      result (run os (SetMode {| handle := h |} mode) w1) = Some e ->
      result (run os (OpenPort portName mode) w) =
      (None, Some (SerialPortError ERROR_INVALID_SERIAL_PORT))
      /\ exists t c, trace (run os (OpenPort portName mode) w) =
                     t ++ [Ev (CloseHandle h) c])
  /\ ((exists port, result (run os (OpenPort portName mode) w) = (Some port, None))
      \/ (exists err, result (run os (OpenPort portName mode) w) = (None, Some err))).
Proof.
  split; [| apply OpenPort_port_or_error].
  intros path h w1 e Hp Hc Hm.
  rewrite run_OpenPort, Hp, Hc. unfold close_and_fail.
  destruct (run os (SetMode _ mode) w1) as [[m t1] w2].
  unfold result in Hm. simpl in Hm. subst m.
  destruct (syscall os (CloseHandle h) w2) as [c w3].
  split; [reflexivity |].
  exists (Ev (CreateFile path) (inl h) :: t1), c. reflexivity.
Qed.

(** On the reference machine: a baud rate the driver refuses. *)
Lemma OpenPort_failed_SetMode_witness :
  result (run Windows (OpenPort "COM1" mode_fast) (boot good_driver default_dcb [] []))
  = (None, Some (SerialPortError ERROR_INVALID_SERIAL_PORT))
  /\ exists t c,
      trace (run Windows (OpenPort "COM1" mode_fast) (boot good_driver default_dcb [] []))
      = t ++ [Ev (CloseHandle COM1) c].
Proof.
  apply (proj1 (OpenPort_failed_SetMode Windows "COM1" mode_fast
                  (boot good_driver default_dcb [] []))
           COM1_path COM1 (opened good_driver default_dcb [] [])
           (SerialPortError ERROR_INVALID_SERIAL_PORT));
    reflexivity.
Defined.

(** C4, as stated, fails: the mode cannot be applied, and the error
    [OpenPort] returns is of the kind [InvalidSerialPort], not of a kind
    [InvalidConfiguration]. *)
Lemma OpenPort_failed_SetMode_kind :
  let w := boot good_driver default_dcb [] [] in
  result (run Windows (SetMode port4 mode_fast) (opened good_driver default_dcb [] []))
  = Some (SerialPortError ERROR_INVALID_SERIAL_PORT)
  /\ exists err,
      result (run Windows (OpenPort "COM1" mode_fast) w) = (None, Some err)
      /\ kind_of err = InvalidSerialPort
      /\ kind_of err <> InvalidConfiguration.
Proof.
  split; [reflexivity |].
  exists (SerialPortError ERROR_INVALID_SERIAL_PORT).
  split; [reflexivity |]. split; [reflexivity | discriminate].
Qed.

(** C5.  When [CreateFile] fails, [OpenPort] makes no further call and
    returns no port; the error is [ERROR_PORT_BUSY] for access denied,
    [ERROR_PORT_NOT_FOUND] for file not found, and the platform error itself
    for any other failure. *)
Theorem OpenPort_open_failure (os : OS) (portName : string) (mode : Mode)
    (w w1 : world os) (path : string) (e : Errno) :
  UTF16PtrFromString ((backslash +:+ backslash +:+ "." +:+ backslash) +:+ portName)
  = inl path ->
  syscall os (CreateFile path) w = (inr e, w1) ->
  exists err,
    run os (OpenPort portName mode) w =
    ((None, Some err), [Ev (CreateFile path) (inr e)], w1)
    /\ (e = ERROR_ACCESS_DENIED ->
        err = SerialPortError ERROR_PORT_BUSY /\ kind_of err = PortBusy)
    /\ (e = ERROR_FILE_NOT_FOUND ->
        err = SerialPortError ERROR_PORT_NOT_FOUND /\ kind_of err = PortNotFound)
    /\ (e <> ERROR_ACCESS_DENIED -> e <> ERROR_FILE_NOT_FOUND ->
        err = SysError e /\ kind_of err = RawPlatformError).
Proof.
  intros Hp Hc. exists (open_error e).
  rewrite run_OpenPort, Hp, Hc. split; [reflexivity |].
  unfold open_error. repeat split; try (subst e; reflexivity).
  - destruct (e =? ERROR_ACCESS_DENIED) eqn:Ha; [apply Z.eqb_eq in Ha; contradiction |].
    destruct (e =? ERROR_FILE_NOT_FOUND) eqn:Hf; [apply Z.eqb_eq in Hf; contradiction |].
    reflexivity.
  - destruct (e =? ERROR_ACCESS_DENIED) eqn:Ha; [apply Z.eqb_eq in Ha; contradiction |].
    destruct (e =? ERROR_FILE_NOT_FOUND) eqn:Hf; [apply Z.eqb_eq in Hf; contradiction |].
    reflexivity.
Qed.

(** On the reference machine: the port is already held, there is no such
    port, and the driver cannot open the device. *)
Lemma OpenPort_open_failure_witness :
  (exists err,
      run Windows (OpenPort "COM1" mode_default) (opened good_driver default_dcb [] [])
      = ((None, Some err), [Ev (CreateFile COM1_path) (inr ERROR_ACCESS_DENIED)],
         opened good_driver default_dcb [] [])
      /\ err = SerialPortError ERROR_PORT_BUSY)
  /\ (exists err,
      result (run Windows (OpenPort "COM9" mode_default) (boot good_driver default_dcb [] []))
      = (None, Some err)
      /\ err = SerialPortError ERROR_PORT_NOT_FOUND)
  /\ (exists err,
      result (run Windows (OpenPort "COM1" mode_default) (boot broken_driver default_dcb [] []))
      = (None, Some err)
      /\ err = SysError ERROR_GEN_FAILURE).
Proof.
  split; [| split].
  - destruct (OpenPort_open_failure Windows "COM1" mode_default
                (opened good_driver default_dcb [] [])
                (opened good_driver default_dcb [] [])
                COM1_path ERROR_ACCESS_DENIED eq_refl eq_refl)
      as (err & Hr & Hb & _ & _).
    exists err. split; [exact Hr | apply Hb; reflexivity].
  - destruct (OpenPort_open_failure Windows "COM9" mode_default
                (boot good_driver default_dcb [] [])
                (boot good_driver default_dcb [] [])
                (backslash +:+ backslash +:+ "." +:+ backslash +:+ "COM9")
                ERROR_FILE_NOT_FOUND eq_refl eq_refl)
      as (err & Hr & _ & Hn & _).
    exists err. split; [rewrite Hr; reflexivity | apply Hn; reflexivity].
  - destruct (OpenPort_open_failure Windows "COM1" mode_default
                (boot broken_driver default_dcb [] [])
                (boot broken_driver default_dcb [] [])
                COM1_path ERROR_GEN_FAILURE eq_refl eq_refl)
      as (err & Hr & _ & _ & Ho).
    exists err. split; [rewrite Hr; reflexivity | apply Ho; discriminate].
Defined.

(** A port name with a NUL byte is refused before any call. *)
Lemma OpenPort_bad_name (os : OS) (portName : string) (mode : Mode)
    (w : world os) (err : error) :
  UTF16PtrFromString ((backslash +:+ backslash +:+ "." +:+ backslash) +:+ portName)
  = inr err ->
  run os (OpenPort portName mode) w = ((None, Some err), [], w).
Proof. intros Hp. rewrite run_OpenPort, Hp. reflexivity. Qed.

(** C10.  When the device handle is acquired and [SetMode] then returns an
    error, [SetMode] has closed the handle once, and [OpenPort] calls
    [CloseHandle] on the same handle value again: the trace of [OpenPort]
    ends with two closes of the handle, and holds no other. *)
Theorem OpenPort_closes_twice (os : OS) (portName : string) (mode : Mode)
    (w w1 : world os) (path : string) (h : Handle) (e : error) :
  UTF16PtrFromString ((backslash +:+ backslash +:+ "." +:+ backslash) +:+ portName)
  = inl path ->
  syscall os (CreateFile path) w = (inl h, w1) ->
  result (run os (SetMode {| handle := h |} mode) w1) = Some e ->
  closes h (trace (run os (SetMode {| handle := h |} mode) w1)) = 1%nat
  /\ closes h (trace (run os (OpenPort portName mode) w)) = 2%nat
  /\ exists t c1 c2,
      trace (run os (OpenPort portName mode) w) =
      t ++ [Ev (CloseHandle h) c1; Ev (CloseHandle h) c2].
Proof.
  intros Hp Hc Hm.
  destruct (SetMode_failure_closes os {| handle := h |} mode w1 e Hm)
    as (_ & Hn & t & c1 & Ht).
  cbn [handle] in Hn, Ht. split; [exact Hn |].
  rewrite run_OpenPort, Hp, Hc. unfold close_and_fail.
  destruct (run os (SetMode _ mode) w1) as [[m t1] w2].
  unfold result in Hm. unfold trace in Hn, Ht. cbn [fst snd] in Hm, Hn, Ht.
  subst m.
  destruct (syscall os (CloseHandle h) w2) as [c2 w3].
  unfold trace. cbn [fst snd closes is_CloseHandle]. split.
  - rewrite closes_app. cbn [closes is_CloseHandle]. rewrite Hn, Z.eqb_refl.
    reflexivity.
  - exists (Ev (CreateFile path) (inl h) :: t), c1, c2.
    rewrite Ht. simpl. rewrite <- app_assoc. reflexivity.
Qed.

(** On the reference machine: the refused baud rate closes handle 4 twice. *)
Lemma OpenPort_closes_twice_witness :
  closes COM1 (trace (run Windows (SetMode port4 mode_fast)
                        (opened good_driver default_dcb [] []))) = 1%nat
  /\ closes COM1 (trace (run Windows (OpenPort "COM1" mode_fast)
                           (boot good_driver default_dcb [] []))) = 2%nat
  /\ exists t c1 c2,
      trace (run Windows (OpenPort "COM1" mode_fast) (boot good_driver default_dcb [] []))
      = t ++ [Ev (CloseHandle COM1) c1; Ev (CloseHandle COM1) c2].
Proof.
  apply (OpenPort_closes_twice Windows "COM1" mode_fast
           (boot good_driver default_dcb [] [])
           (opened good_driver default_dcb [] [])
           COM1_path COM1 (SerialPortError ERROR_INVALID_SERIAL_PORT));
    reflexivity.
Defined.

(** What holds of the overlay of [OpenPort] for every fetched record: the
    thresholds and characters are the fixed ones, the CTS and DSR gating
    bits are off, the enable bits of the DTR and RTS fields are on, and the
    handshake bits of those two fields are the fetched ones. *)
Lemma apply_policy_fields (d : DCB) :
  XonLim (apply_policy d) = 2048
  /\ XoffLim (apply_policy d) = 512
  /\ XonChar (apply_policy d) = 0x11
  /\ XoffChar (apply_policy d) = 0x13
  /\ fOutxCtsFlow (apply_policy d) = false
  /\ fOutxDsrFlow (apply_policy d) = false
  /\ Z.testbit (Flags (apply_policy d)) 4 = true
  /\ Z.testbit (Flags (apply_policy d)) 12 = true
  /\ Z.testbit (Flags (apply_policy d)) 5 = Z.testbit (Flags d) 5
  /\ Z.testbit (Flags (apply_policy d)) 13 = Z.testbit (Flags d) 13.
Proof.
  unfold fOutxCtsFlow, fOutxDsrFlow, apply_policy. cbn [XonLim XoffLim XonChar XoffChar Flags set_Flags set_XonLim set_XoffLim set_XonChar set_XoffChar].
  repeat split; try reflexivity;
    repeat (rewrite ?Z.land_spec, ?Z.lor_spec);
    simpl;
    rewrite ?andb_true_r, ?andb_false_r, ?orb_false_r, ?orb_true_r; reflexivity.
Qed.

(** A two bit field of a packed word, from its two bits. *)
Lemma two_bit_field (f k : Z) :
  0 <= k ->
  Z.land (Z.shiftr f k) 3 =
  Z.b2z (Z.testbit f k) + 2 * Z.b2z (Z.testbit f (k + 1)).
Proof.
  intros Hk. apply Z.bits_inj'. intros n Hn.
  rewrite Z.land_spec, Z.shiftr_spec by lia.
  destruct (Z.eq_dec n 0) as [-> | H0].
  { rewrite Z.add_0_l. destruct (Z.testbit f k), (Z.testbit f (k + 1)); reflexivity. }
  destruct (Z.eq_dec n 1) as [-> | H1].
  { rewrite (Z.add_comm 1 k).
    destruct (Z.testbit f k), (Z.testbit f (k + 1)); reflexivity. }
  assert (Hhigh : forall c, 0 <= c < 4 -> Z.testbit c n = false).
  { intros c Hc. destruct (Z.eq_dec c 0) as [-> | Hc0]; [apply Z.bits_0 |].
    apply Z.bits_above_log2; [lia |].
    assert (Z.log2 c < 2) by (apply Z.log2_lt_pow2; lia). lia. }
  rewrite (Hhigh 3) by lia. rewrite andb_false_r. symmetry. apply Hhigh.
  destruct (Z.testbit f k), (Z.testbit f (k + 1)); simpl; lia.
Qed.

(** The DTR and RTS control fields after the overlay: enabled when the
    handshake bit of the fetched record was clear, and 3 when it was set,
    since the enable bit is or-ed in and the field is not cleared first. *)
Lemma apply_policy_line_control (d : DCB) :
  fRtsControl (apply_policy d) =
  (if Z.testbit (Flags d) 13 then CONTROL_TOGGLE else CONTROL_ENABLE)
  /\ fDtrControl (apply_policy d) =
     (if Z.testbit (Flags d) 5 then CONTROL_TOGGLE else CONTROL_ENABLE).
Proof.
  destruct (apply_policy_fields d) as (_ & _ & _ & _ & _ & _ & H4 & H12 & H5 & H13).
  unfold fRtsControl, fDtrControl.
  rewrite !two_bit_field by lia. change (12 + 1) with 13. change (4 + 1) with 5.
  rewrite H4, H12, H5, H13.
  split; [destruct (Z.testbit (Flags d) 13) | destruct (Z.testbit (Flags d) 5)];
    reflexivity.
Qed.

(** A successful [OpenPort] has written the overlay of the record it fetched
    after [SetMode], and then the fixed timeouts, both accepted. *)
Lemma OpenPort_success_writes (os : OS) (portName : string) (mode : Mode)
    (w : world os) (port : SerialPort) :
  result (run os (OpenPort portName mode) w) = (Some port, None) ->
  exists t d,
    trace (run os (OpenPort portName mode) w) =
    t ++ [Ev (GetCommState (handle port)) (inl d);
          Ev (SetCommState (handle port) (apply_policy d)) None;
          Ev (SetCommTimeouts (handle port) open_timeouts) None].
Proof.
  rewrite run_OpenPort. unfold close_and_fail.
  destruct (UTF16PtrFromString _) as [path | err]; [| discriminate].
  destruct (syscall os (CreateFile path) w) as [[h | e] w1]; [| discriminate].
  destruct (run os (SetMode _ mode) w1) as [[m t1] w2].
  destruct m as [e |].
  { destruct (syscall os (CloseHandle h) w2) as [c w3]. discriminate. }
  destruct (syscall os (GetCommState h) w2) as [[d | e] w3].
  2: { destruct (syscall os (CloseHandle h) w3) as [c w4]. discriminate. }
  destruct (syscall os (SetCommState h _) w3) as [[e |] w4].
  { destruct (syscall os (CloseHandle h) w4) as [c w5]. discriminate. }
  destruct (syscall os (SetCommTimeouts h _) w4) as [[e |] w5].
  { destruct (syscall os (CloseHandle h) w5) as [c w6]. discriminate. }
  unfold result, trace. cbn [fst snd]. intros [= <-]. cbn [handle].
  exists (Ev (CreateFile path) (inl h) :: t1), d.
  simpl. rewrite <- app_assoc. reflexivity.
Qed.

(** C6 at a device left with RTS handshaking: [OpenPort] succeeds, and the
    RTS control field of the device is 3 (toggle), not 1 (enabled), because
    the enable bit is or-ed into the field without clearing it first; the
    DTR field, the gating bits, the thresholds and the timeouts are as C6
    says. *)
Lemma OpenPort_rts_handshake_left :
  let r := run Windows (OpenPort "COM1" mode_default)
               (boot good_driver handshake_dcb [] []) in
  fRtsControl handshake_dcb = CONTROL_HANDSHAKE
  /\ result r = (Some port4, None)
  /\ m_open (final r) = true
  /\ Flags (m_dcb (final r)) = 0x3091
  /\ fRtsControl (m_dcb (final r)) = CONTROL_TOGGLE
  /\ fRtsControl (m_dcb (final r)) <> CONTROL_ENABLE
  /\ fDtrControl (m_dcb (final r)) = CONTROL_ENABLE
  /\ fOutxCtsFlow (m_dcb (final r)) = false
  /\ fOutxDsrFlow (m_dcb (final r)) = false
  /\ m_timeouts (final r) = Some open_timeouts.
Proof. vm_compute. repeat split; (reflexivity || discriminate). Qed.

(* ===================================================================== *)
(** ** Break signal generator: [SendBreak] *)
(* ===================================================================== *)

Lemma int64_small (x : Z) : - 2 ^ 63 <= x < 2 ^ 63 -> int64 x = x.
Proof. intros H. unfold int64. rewrite Z.mod_small; lia. Qed.

(** C9, as the code has it.  If asserting the break fails, [SendBreak]
    closes the handle and returns [ERROR_INVALID_SERIAL_PORT], with no sleep
    and no clear.
    Otherwise it sleeps for [time.Duration(breakTime) * time.Millisecond]
    and then clears the break; if clearing fails it closes the handle and
    returns [ERROR_INVALID_SERIAL_PORT], and if clearing succeeds it returns
    nil after exactly the three calls assert, sleep, clear.  The duration is
    the product computed in 64 bits: [breakTime] milliseconds as long as
    that many nanoseconds fit a signed 64 bit integer, and the wrapped
    product otherwise. *)
Theorem SendBreak_steps (os : OS) (port : SerialPort) (breakTime : Z)
    (w : world os) :
  (forall e w1,
      syscall os (SetCommBreak (handle port)) w = (Some e, w1) ->
      exists c w2,
        syscall os (CloseHandle (handle port)) w1 = (c, w2) /\
        run os (SendBreak port breakTime) w =
        (Some (SerialPortError ERROR_INVALID_SERIAL_PORT),
         [Ev (SetCommBreak (handle port)) (Some e);
          Ev (CloseHandle (handle port)) c], w2))
  /\ (forall w1 w2 b w3,
      syscall os (SetCommBreak (handle port)) w = (None, w1) ->
      syscall os (Sleep (Duration_ms breakTime)) w1 = (tt, w2) ->
      syscall os (ClearCommBreak (handle port)) w2 = (b, w3) ->
      match b with
      | Some e =>
          exists c w4,
            syscall os (CloseHandle (handle port)) w3 = (c, w4) /\
            run os (SendBreak port breakTime) w =
            (Some (SerialPortError ERROR_INVALID_SERIAL_PORT),
             [Ev (SetCommBreak (handle port)) None;
              Ev (Sleep (Duration_ms breakTime)) tt;
              Ev (ClearCommBreak (handle port)) (Some e);
              Ev (CloseHandle (handle port)) c], w4)
      | None =>
          run os (SendBreak port breakTime) w =
          (None,
           [Ev (SetCommBreak (handle port)) None;
            Ev (Sleep (Duration_ms breakTime)) tt;
            Ev (ClearCommBreak (handle port)) None], w3)
      end)
  /\ (- 2 ^ 63 <= breakTime * 1000000 < 2 ^ 63 ->
      Duration_ms breakTime = breakTime * 1000000).
Proof.
  split; [| split].
  - intros e w1 Hb. simpl. rewrite Hb. simpl.
    destruct (syscall os (CloseHandle _) w1) as [c w2].
    exists c, w2. split; reflexivity.
  - intros w1 w2 b w3 Hb Hs Hc. simpl. rewrite Hb. simpl. rewrite Hs. simpl.
    rewrite Hc. destruct b as [e |]; simpl.
    + destruct (syscall os (CloseHandle _) w3) as [c w4].
      exists c, w4. split; reflexivity.
    + reflexivity.
  - intros H. unfold Duration_ms, Millisecond.
    rewrite (int64_small breakTime) by lia. apply int64_small. exact H.
Qed.

(** On the reference machine: a break of 250 ms that cannot be asserted, one
    that cannot be cleared, and one that succeeds. *)
Lemma SendBreak_steps_witness :
  (exists c w2,
      syscall Windows (CloseHandle COM1) (opened no_break_driver default_dcb [] [])
      = (c, w2) /\
      run Windows (SendBreak port4 250) (opened no_break_driver default_dcb [] []) =
      (Some (SerialPortError ERROR_INVALID_SERIAL_PORT),
       [Ev (SetCommBreak COM1) (Some ERROR_GEN_FAILURE); Ev (CloseHandle COM1) c], w2))
  /\ (exists c w4,
      syscall Windows (CloseHandle COM1)
        (with_clock 250000000 (with_break true (opened no_clear_driver default_dcb [] [])))
      = (c, w4) /\
      run Windows (SendBreak port4 250) (opened no_clear_driver default_dcb [] []) =
      (Some (SerialPortError ERROR_INVALID_SERIAL_PORT),
       [Ev (SetCommBreak COM1) None;
        Ev (Sleep (Duration_ms 250)) tt;
        Ev (ClearCommBreak COM1) (Some ERROR_GEN_FAILURE);
        Ev (CloseHandle COM1) c], w4))
  /\ run Windows (SendBreak port4 250) (opened good_driver default_dcb [] []) =
     (None,
      [Ev (SetCommBreak COM1) None;
       Ev (Sleep (Duration_ms 250)) tt;
       Ev (ClearCommBreak COM1) None],
      with_break false
        (with_clock 250000000 (with_break true (opened good_driver default_dcb [] []))))
  /\ Duration_ms 250 = 250 * 1000000.
Proof.
  split; [| split; [| split]].
  - apply (proj1 (SendBreak_steps Windows port4 250
                    (opened no_break_driver default_dcb [] []))
             ERROR_GEN_FAILURE (opened no_break_driver default_dcb [] [])).
    reflexivity.
  - apply (proj1 (proj2 (SendBreak_steps Windows port4 250
                           (opened no_clear_driver default_dcb [] [])))
             (with_break true (opened no_clear_driver default_dcb [] []))
             (with_clock 250000000
                (with_break true (opened no_clear_driver default_dcb [] [])))
             (Some ERROR_GEN_FAILURE)
             (with_clock 250000000
                (with_break true (opened no_clear_driver default_dcb [] []))));
      reflexivity.
  - apply (proj1 (proj2 (SendBreak_steps Windows port4 250
                           (opened good_driver default_dcb [] [])))
             (with_break true (opened good_driver default_dcb [] []))
             (with_clock 250000000
                (with_break true (opened good_driver default_dcb [] [])))
             None
             (with_break false
                (with_clock 250000000
                   (with_break true (opened good_driver default_dcb [] [])))));
      reflexivity.
  - apply (proj2 (proj2 (SendBreak_steps Windows port4 250
                           (opened good_driver default_dcb [] [])))).
    lia.
Defined.

(** C9, as stated, fails: a break of 9223372036855 ms is asked for; the
    duration in nanoseconds does not fit 64 bits and wraps to a negative
    one, so the break is asserted and cleared with no time slept, and nil is
    returned. *)
Lemma SendBreak_duration_wraps :
  let r := run Windows (SendBreak port4 9223372036855)
               (opened good_driver default_dcb [] []) in
  result r = None
  /\ trace r = [Ev (SetCommBreak COM1) None;
                Ev (Sleep (-9223372036854551616)) tt;
                Ev (ClearCommBreak COM1) None]
  /\ Duration_ms 9223372036855 = -9223372036854551616
  /\ Duration_ms 9223372036855 <> 9223372036855 * 1000000
  /\ m_clock (final r) = 0.
Proof. vm_compute. repeat split; (reflexivity || discriminate). Qed.

(* ===================================================================== *)
(** ** The port object after a close *)
(* ===================================================================== *)

(** The reference machine refuses device calls on a handle that is not open. *)
Lemma Windows_rejects_closed (m : Machine) (h : Handle) :
  m_open m = false -> rejected Windows h m.
Proof.
  intros Ho c Hc.
  destruct c; simpl in Hc; try discriminate; injection Hc as ->;
    simpl; unfold device_call, live; rewrite Ho; simpl; discriminate.
Qed.

(** C7, as the code has it.  The port object holds the handle value only,
    and no operation changes it.  In a state where the system refuses device
    calls on that handle, as it does after a close until the value is issued
    again, each operation still makes its first call on the handle and
    fails: [Read] and [Write] return the error of that call; [SetMode] and
    [SendBreak] call [CloseHandle] on the handle again and return
    [ERROR_INVALID_SERIAL_PORT]. *)
Theorem closed_handle_operations (os : OS) (port : SerialPort) (w : world os) :
  rejected os (handle port) w ->
  (forall fuel len, exists n e,
      result (run os (Read (S fuel) port len) w) = Some (n, Some (SysError e))
      /\ trace (run os (Read (S fuel) port len) w) =
         [Ev (ReadFile (handle port) len) (n, Some e)])
  /\ (forall p, exists n e,
      result (run os (Write port p) w) = (n, Some (SysError e))
      /\ trace (run os (Write port p) w) =
         [Ev (WriteFile (handle port) p) (n, Some e)])
  /\ (forall mode, exists e c,
      result (run os (SetMode port mode) w) =
      Some (SerialPortError ERROR_INVALID_SERIAL_PORT)
      /\ trace (run os (SetMode port mode) w) =
         [Ev (GetCommState (handle port)) (inr e);
          Ev (CloseHandle (handle port)) c])
  /\ (forall breakTime, exists e c,
      result (run os (SendBreak port breakTime) w) =
      Some (SerialPortError ERROR_INVALID_SERIAL_PORT)
      /\ trace (run os (SendBreak port breakTime) w) =
         [Ev (SetCommBreak (handle port)) (Some e);
          Ev (CloseHandle (handle port)) c]).
Proof.
  intros Hrej. split; [| split; [| split]].
  - intros fuel len.
    specialize (Hrej (ReadFile (handle port) len) eq_refl).
    unfold Read. rewrite Read_loop_step.
    destruct (syscall os (ReadFile _ _) w) as [[n e] w1]. simpl in *.
    destruct e as [e |]; [| contradiction].
    exists n, e. split; reflexivity.
  - intros p.
    specialize (Hrej (WriteFile (handle port) p) eq_refl).
    simpl. destruct (syscall os (WriteFile _ _) w) as [[n e] w1]. simpl in *.
    destruct e as [e |]; [| contradiction].
    exists n, e. split; reflexivity.
  - intros mode.
    specialize (Hrej (GetCommState (handle port)) eq_refl).
    rewrite run_SetMode. cbv zeta.
    destruct (syscall os (GetCommState _) w) as [[d | e] w1]; simpl in Hrej;
      [contradiction |].
    destruct (syscall os (CloseHandle _) w1) as [c w2].
    exists e, c. split; reflexivity.
  - intros breakTime.
    specialize (Hrej (SetCommBreak (handle port)) eq_refl).
    simpl. destruct (syscall os (SetCommBreak _) w) as [[e |] w1]; simpl in *;
      [| contradiction].
    destruct (syscall os (CloseHandle _) w1) as [c w2].
    exists e, c. split; reflexivity.
Qed.

(** On the reference machine, after [Close] on the open port. *)
Lemma closed_handle_operations_witness :
  let w := final (run Windows (Close port4) (opened good_driver default_dcb [] [])) in
  m_open w = false
  /\ (exists n e,
      result (run Windows (Read 1 port4 16) w) = Some (n, Some (SysError e))
      /\ trace (run Windows (Read 1 port4 16) w) =
         [Ev (ReadFile COM1 16) (n, Some e)])
  /\ (exists e c,
      result (run Windows (SetMode port4 mode_default) w) =
      Some (SerialPortError ERROR_INVALID_SERIAL_PORT)
      /\ trace (run Windows (SetMode port4 mode_default) w) =
         [Ev (GetCommState COM1) (inr e); Ev (CloseHandle COM1) c]).
Proof.
  intros w.
  destruct (closed_handle_operations Windows port4 w
              (Windows_rejects_closed w COM1 eq_refl))
    as (Hread & _ & Hmode & _).
  split; [reflexivity |]. split; [apply (Hread 0%nat 16%nat) | apply Hmode].
Defined.

(** C7, as stated, fails: the port is closed without error, the system
    issues the same handle value to the next open, and a write through the
    closed port object then succeeds with both bytes. *)
Lemma write_after_close_succeeds :
  let r := run Windows write_after_close (boot good_driver default_dcb [] []) in
  result r = Some (None, (2, None))
  /\ closes COM1 (trace r) = 1%nat
  /\ m_sent (final r) = [65; 66].
Proof. vm_compute. repeat split; reflexivity. Qed.

(* ===================================================================== *)
(** ** Port enumerator: [GetPortsList] *)
(* ===================================================================== *)

(** The enumeration loop, when it runs to its end: the list keeps its
    length, every visited index holds the decoded data of its own
    successful [RegEnumValue], the others are untouched, and no call of the
    loop failed. *)
Lemma enum_values_complete (os : OS) (key : Handle) (indices : list nat) :
  forall (names : list string) (w : world os) (l : list string),
    NoDup indices ->
    (forall i, In i indices -> (i < length names)%nat) ->
    result (run os (enum_values key indices names) w) = Some l ->
    length l = length names
    /\ (forall i, In i indices ->
          exists data,
            In (Ev (RegEnumValue key (uint32 (Z.of_nat i))) (inl data))
               (trace (run os (enum_values key indices names) w))
            /\ l !! i = Some (UTF16ToString (buffer 1024 data)))
    /\ (forall j, ~ In j indices -> l !! j = names !! j)
    /\ Forall (fun e => stage_failed e = false)
              (trace (run os (enum_values key indices names) w)).
Proof.
  induction indices as [| i rest IH]; intros names w l Hnd Hlt.
  - unfold result, trace. simpl. intros [= <-].
    repeat split; [intros i [] | constructor].
  - cbn [enum_values run bind sys].
    destruct (syscall os (RegEnumValue _ _) w) as [[data | e] w1].
    2: { unfold result. simpl. discriminate. }
    apply NoDup_cons in Hnd as [Hi Hnd].
    rewrite list_elem_of_In in Hi.
    specialize (IH (<[i := UTF16ToString (buffer 1024 data)]> names) w1 l Hnd).
    destruct (run os (enum_values key rest _) w1) as [[a t] w2].
    unfold result, trace in *. cbn [fst snd] in *.
    intros Ha. destruct IH as (Hlen & Hin & Hout & Hall).
    { intros j Hj. rewrite length_insert. apply Hlt. right. exact Hj. }
    { exact Ha. }
    rewrite length_insert in Hlen. split; [exact Hlen |].
    split; [| split].
    + intros j [<- | Hj].
      * exists data. split; [left; reflexivity |].
        rewrite (Hout i Hi). apply list_lookup_insert_eq.
        apply Hlt. left. reflexivity.
      * destruct (Hin j Hj) as (dj & Hev & Hl).
        exists dj. split; [right; exact Hev | exact Hl].
    + intros j Hj. rewrite Hout.
      * apply list_lookup_insert_ne. intros ->. apply Hj. left. reflexivity.
      * intros Hr. apply Hj. right. exact Hr.
    + constructor; [reflexivity | exact Hall].
Qed.

(** The enumeration loop, when it returns early: the failed [RegEnumValue]
    is its last call, and no call before it failed. *)
Lemma enum_values_aborts (os : OS) (key : Handle) (indices : list nat) :
  forall (names : list string) (w : world os),
    result (run os (enum_values key indices names) w) = None ->
    exists t index e,
      trace (run os (enum_values key indices names) w) =
      t ++ [Ev (RegEnumValue key index) (inr e)]
      /\ Forall (fun e => stage_failed e = false) t.
Proof.
  induction indices as [| i rest IH]; intros names w.
  - unfold result. simpl. discriminate.
  - cbn [enum_values run bind sys].
    destruct (syscall os (RegEnumValue _ _) w) as [[data | e] w1].
    + specialize (IH (<[i := UTF16ToString (buffer 1024 data)]> names) w1).
      destruct (run os (enum_values key rest _) w1) as [[a t] w2].
      unfold result, trace in *. cbn [fst snd] in *.
      intros Ha. destruct (IH Ha) as (t' & index & e & -> & Hall).
      exists (Ev (RegEnumValue key (uint32 (Z.of_nat i))) (inl data) :: t'), index, e.
      split; [reflexivity |]. constructor; [reflexivity | exact Hall].
    + intros _. exists [], (uint32 (Z.of_nat i)), e.
      split; [reflexivity | constructor].
Qed.

(** The run of [GetPortsList], stage by stage. *)
Lemma run_GetPortsList (os : OS) (w : world os) :
  run os GetPortsList w =
  let '(o, w1) := syscall os (RegOpenKeyEx SERIALCOMM) w in
  match o with
  | inr e =>
      ((None, ERR_ENUMERATING), [Ev (RegOpenKeyEx SERIALCOMM) (inr e)], w1)
  | inl h =>
      let '(q, w2) := syscall os (RegQueryInfoKey h) w1 in
      let '(res, t, w3) :=
        match q with
        | inr e => ((None, ERR_ENUMERATING), [], w2)
        | inl n =>
            let names := replicate (Z.to_nat n) EmptyString in
            let '(l, t, w3) :=
              run os (enum_values h (seq 0 (length names)) names) w2 in
            (match l with
             | None => (None, ERR_ENUMERATING)
             | Some names => (Some names, None)
             end, t, w3)
        end in
      let '(c, w4) := syscall os (RegCloseKey h) w3 in
      (res,
       Ev (RegOpenKeyEx SERIALCOMM) (inl h) :: Ev (RegQueryInfoKey h) q
         :: t ++ [Ev (RegCloseKey h) c], w4)
  end.
Proof.
  unfold GetPortsList.
  change (UTF16PtrFromString SERIALCOMM) with (@inl string error SERIALCOMM).
  cbn [run bind sys].
  destruct (syscall os (RegOpenKeyEx SERIALCOMM) w) as [[h | e] w1];
    [| reflexivity].
  cbn [run bind sys].
  destruct (syscall os (RegQueryInfoKey h) w1) as [[n | e] w2].
  - rewrite !run_bind.
    destruct (run os (enum_values h _ _) w2) as [[l t] w3].
    destruct l as [names |]; cbn [run bind];
      destruct (syscall os (RegCloseKey h) w3) as [c w4];
      rewrite ?app_nil_r; reflexivity.
  - cbn [run bind]. destruct (syscall os (RegCloseKey h) w2) as [c w3]. reflexivity.
Qed.

(** C8.  [GetPortsList] returns either a list without error or no list and
    the error [ERROR_ENUMERATING_PORTS].  A returned list has as many names
    as [RegQueryInfoKey] reported values, and its entry at every index is the
    decoded data of the successful [RegEnumValue] at that index.  If any
    stage (opening the key, querying it, enumerating any value) fails, the
    operation stops there: the failed call is the last one, but for the
    deferred [RegCloseKey] when the key was open, and what is returned is
    the error, with no list. *)
Theorem GetPortsList_complete_or_error (os : OS) (w : world os) :
  ((exists key n names,
       result (run os GetPortsList w) = (Some names, None)
       /\ In (Ev (RegQueryInfoKey key) (inl n)) (trace (run os GetPortsList w))
       /\ length names = Z.to_nat n
       /\ forall i, (i < length names)%nat ->
            exists data,
              In (Ev (RegEnumValue key (uint32 (Z.of_nat i))) (inl data))
                 (trace (run os GetPortsList w))
              /\ names !! i = Some (UTF16ToString (buffer 1024 data)))
   \/ result (run os GetPortsList w) =
      (None, Some (SerialPortError ERROR_ENUMERATING_PORTS)))
  /\ (forall e, In e (trace (run os GetPortsList w)) -> stage_failed e = true ->
      result (run os GetPortsList w) =
      (None, Some (SerialPortError ERROR_ENUMERATING_PORTS))
      /\ (trace (run os GetPortsList w) = [e]
          \/ exists t key c,
              trace (run os GetPortsList w) = t ++ [e; Ev (RegCloseKey key) c])).
Proof.
  rewrite run_GetPortsList.
  destruct (syscall os (RegOpenKeyEx SERIALCOMM) w) as [[h | e] w1].
  2: { split; [right; reflexivity |].
       intros e' [<- | []] _. split; [reflexivity | left; reflexivity]. }
  destruct (syscall os (RegQueryInfoKey h) w1) as [[n | e] w2].
  2: { destruct (syscall os (RegCloseKey h) w2) as [c w3].
       split; [right; reflexivity |].
       intros e' [<- | [<- | [<- | []]]] Hf; try discriminate.
       split; [reflexivity |]. right.
       exists [Ev (RegOpenKeyEx SERIALCOMM) (inl h)], h, c. reflexivity. }
  cbv zeta.
  pose proof (enum_values_complete os h
                (seq 0 (length (replicate (Z.to_nat n) EmptyString)))
                (replicate (Z.to_nat n) EmptyString) w2) as Hloop.
  pose proof (enum_values_aborts os h
                (seq 0 (length (replicate (Z.to_nat n) EmptyString)))
                (replicate (Z.to_nat n) EmptyString) w2) as Habort.
  destruct (run os (enum_values h _ _) w2) as [[l t] w3].
  destruct (syscall os (RegCloseKey h) w3) as [c w4].
  unfold result, trace in *. cbn [fst snd] in *.
  destruct l as [names |].
  - clear Habort.
    destruct (Hloop names) as (Hlen & Hin & _ & Hall).
    { apply NoDup_ListNoDup, List.seq_NoDup. }
    { intros i Hi. apply List.in_seq in Hi. lia. }
    { reflexivity. }
    rewrite length_replicate in Hlen.
    split.
    + left. exists h, n, names. split; [reflexivity |].
      split; [right; left; reflexivity |]. split; [exact Hlen |].
      intros i Hi. destruct (Hin i) as (data & Hev & Hl).
      { apply List.in_seq. rewrite length_replicate. lia. }
      exists data. split; [| exact Hl].
      right. right. apply List.in_or_app. left. exact Hev.
    + intros e [<- | [<- | He]] Hf; [discriminate | discriminate |].
      apply List.in_app_or in He as [He | [<- | []]]; [| discriminate].
      rewrite Forall_forall in Hall. apply list_elem_of_In in He.
      rewrite (Hall e He) in Hf. discriminate.
  - clear Hloop.
    destruct (Habort eq_refl) as (t' & index & err & -> & Hall).
    split; [right; reflexivity |].
    intros e [<- | [<- | He]] Hf; [discriminate | discriminate |].
    split; [reflexivity |]. right.
    apply List.in_app_or in He as [He | [<- | []]]; [| discriminate].
    apply List.in_app_or in He as [He | [<- | []]].
    + rewrite Forall_forall in Hall. apply list_elem_of_In in He.
      rewrite (Hall e He) in Hf. discriminate.
    + exists (Ev (RegOpenKeyEx SERIALCOMM) (inl h)
                :: Ev (RegQueryInfoKey h) (inl n) :: t'), h, c.
      simpl. rewrite <- app_assoc. reflexivity.
Qed.

(** On the reference machine, whose registry lists two ports. *)
Lemma GetPortsList_two_ports :
  run Windows GetPortsList (boot good_driver default_dcb [] []) =
  ((Some ["COM1"; "COM3"], None),
   [Ev (RegOpenKeyEx SERIALCOMM) (inl KEY);
    Ev (RegQueryInfoKey KEY) (inl 2);
    Ev (RegEnumValue KEY 0) (inl [67; 79; 77; 49; 0]);
    Ev (RegEnumValue KEY 1) (inl [67; 79; 77; 51; 0]);
    Ev (RegCloseKey KEY) None],
   boot good_driver default_dcb [] []).
Proof. vm_compute. reflexivity. Qed.

(** With a registry that loses a value during the enumeration: the first
    value was read, the second fails, and the error is returned without the
    name already read. *)
Lemma GetPortsList_complete_or_error_witness :
  trace (run shrinking_registry GetPortsList tt) =
  [Ev (RegOpenKeyEx SERIALCOMM) (inl KEY);
   Ev (RegQueryInfoKey KEY) (inl 2);
   Ev (RegEnumValue KEY 0) (inl [67; 79; 77; 49; 0]);
   Ev (RegEnumValue KEY 1) (inr ERROR_NO_MORE_ITEMS);
   Ev (RegCloseKey KEY) None]
  /\ result (run shrinking_registry GetPortsList tt) =
     (None, Some (SerialPortError ERROR_ENUMERATING_PORTS)).
Proof.
  split; [reflexivity |].
  apply (proj2 (GetPortsList_complete_or_error shrinking_registry tt)
           (Ev (RegEnumValue KEY 1) (inr ERROR_NO_MORE_ITEMS))).
  - right. right. right. left. reflexivity.
  - reflexivity.
Defined.

(* ===================================================================== *)
(** ** Further properties of the transfer engine *)
(* ===================================================================== *)

Lemma probe_round_no_close (h : Handle) (t : list event) :
  Forall (fun e => probe_round h e = true) t -> closes h t = 0%nat.
Proof.
  induction 1 as [| e t He _ IH]; [reflexivity |].
  cbn [closes]. rewrite IH.
  destruct e as [c r]. destruct c; try discriminate; reflexivity.
Qed.

(** How a call of [Read] that returns has run.  Up to its last round every
    blocking read came back empty and every write-back of the control record
    succeeded.  Then either the last read delivered the [n > 0] bytes that
    are returned without error; or the last read failed and its count and
    error are returned; or the write-back of the last probe failed, the
    handle is closed as the last call, and 0 with that error is returned.
    The handle is closed in the third case only, and once; every error
    [Read] returns is a platform error. *)
Theorem Read_outcome (os : OS) (port : SerialPort) (len : nat) (fuel : nat) :
  forall (params : DCB) (w : world os) (n : Z) (oerr : option error),
    result (run os (Read_loop fuel port len params) w) = Some (n, oerr) ->
    exists t,
      Forall (fun e => probe_round (handle port) e = true) t
      /\ ((oerr = None /\ 0 < n
           /\ trace (run os (Read_loop fuel port len params) w) =
              t ++ [Ev (ReadFile (handle port) len) (n, None)]
           /\ closes (handle port)
                (trace (run os (Read_loop fuel port len params) w)) = 0%nat)
          \/ (exists e,
                 oerr = Some (SysError e)
                 /\ trace (run os (Read_loop fuel port len params) w) =
                    t ++ [Ev (ReadFile (handle port) len) (n, Some e)]
                 /\ closes (handle port)
                      (trace (run os (Read_loop fuel port len params) w)) = 0%nat)
          \/ (exists e d c,
                 oerr = Some (SysError e) /\ n = 0
                 /\ trace (run os (Read_loop fuel port len params) w) =
                    t ++ [Ev (SetCommState (handle port) d) (Some e);
                          Ev (CloseHandle (handle port)) c]
                 /\ closes (handle port)
                      (trace (run os (Read_loop fuel port len params) w)) = 1%nat)).
Proof.
  induction fuel as [| fuel IH]; intros params w n oerr.
  - unfold result. simpl. discriminate.
  - rewrite Read_loop_step.
    destruct (syscall os (ReadFile _ _) w) as [[k e] w1]. cbn [fst snd].
    destruct e as [err |].
    { unfold result, trace. cbn [fst snd]. intros [= <- <-].
      exists []. split; [constructor |]. right. left.
      exists err. repeat split. }
    destruct (0 <? k) eqn:Hk.
    { unfold result, trace. cbn [fst snd]. intros [= <- <-].
      exists []. split; [constructor |]. left.
      apply Z.ltb_lt in Hk. repeat split. exact Hk. }
    destruct (syscall os (GetCommState _) w1) as [g w2].
    destruct (syscall os (SetCommState _ _) w2) as [s w3].
    assert (Hround : Forall (fun e => probe_round (handle port) e = true)
                       [Ev (ReadFile (handle port) len) (k, None);
                        Ev (GetCommState (handle port)) g]).
    { repeat constructor; cbn; rewrite Z.eqb_refl; [| reflexivity].
      apply Z.ltb_ge in Hk. apply Z.leb_le in Hk. rewrite Hk. reflexivity. }
    destruct s as [err |].
    { destruct (syscall os (CloseHandle _) w3) as [c w4].
      unfold result, trace. cbn [fst snd]. intros [= <- <-].
      exists [Ev (ReadFile (handle port) len) (k, None);
              Ev (GetCommState (handle port)) g].
      split; [exact Hround |]. right. right.
      exists err, (match g with inl d => d | inr _ => params end), c.
      split; [reflexivity |]. split; [reflexivity |]. split; [reflexivity |].
      cbn. rewrite Z.eqb_refl. reflexivity. }
    specialize (IH (match g with inl d => d | inr _ => params end) w3 n oerr).
    destruct (run os (Read_loop fuel port len _) w3) as [[a t] w4].
    unfold result, trace in *. cbn [fst snd] in *.
    intros Ha. destruct (IH Ha) as (t' & Hall & Hcases).
    exists ([Ev (ReadFile (handle port) len) (k, None);
             Ev (GetCommState (handle port)) g;
             Ev (SetCommState (handle port)
                   (match g with inl d => d | inr _ => params end)) None] ++ t').
    split.
    { apply Forall_app. split; [| exact Hall].
      apply Forall_app with (l1 := [_; _]) (l2 := [_]). split; [exact Hround |].
      repeat constructor. cbn. rewrite Z.eqb_refl. reflexivity. }
    assert (Hc : forall u, closes (handle port)
                   ([Ev (ReadFile (handle port) len) (k, None);
                     Ev (GetCommState (handle port)) g;
                     Ev (SetCommState (handle port)
                           (match g with inl d => d | inr _ => params end)) None]
                    ++ u) = closes (handle port) u) by reflexivity.
    destruct Hcases as [(-> & Hn & -> & Hcl) | [(e & -> & -> & Hcl) | (e & d & c & -> & -> & -> & Hcl)]].
    + left. rewrite Hc. rewrite <- app_assoc. repeat split; assumption.
    + right. left. exists e. rewrite Hc. rewrite <- app_assoc. repeat split; assumption.
    + right. right. exists e, d, c. rewrite Hc. rewrite <- app_assoc.
      repeat split; assumption.
Qed.

(** On the reference machine: two idle rounds, then three bytes. *)
Lemma Read_outcome_witness :
  exists t,
    Forall (fun e => probe_round COM1 e = true) t
    /\ trace (run Windows (Read 3 port4 16)
                (opened good_driver default_dcb [RxIdle; RxIdle; RxData 3] []))
       = t ++ [Ev (ReadFile COM1 16) (3, None)].
Proof.
  destruct (Read_outcome Windows port4 16 3 DCB_zero
              (opened good_driver default_dcb [RxIdle; RxIdle; RxData 3] [])
              3 None eq_refl)
    as (t & Hall & [(_ & _ & Ht & _) | [(e & He & _) | (e & d & c & He & _)]]);
    [| discriminate He | discriminate He].
  exists t. split; [exact Hall | exact Ht].
Defined.

Lemma Read_loop_on_handle (os : OS) (port : SerialPort) (len : nat) (fuel : nat) :
  forall (params : DCB) (w : world os),
    Forall (fun e => on_handle (handle port) e = true)
           (trace (run os (Read_loop fuel port len params) w)).
Proof.
  induction fuel as [| fuel IH]; intros params w; [constructor |].
  rewrite Read_loop_step.
  destruct (syscall os (ReadFile _ _) w) as [[k e] w1]. cbn [fst snd].
  destruct e as [err |]; [repeat constructor; cbn; apply Z.eqb_refl |].
  destruct (0 <? k); [repeat constructor; cbn; apply Z.eqb_refl |].
  destruct (syscall os (GetCommState _) w1) as [g w2].
  destruct (syscall os (SetCommState _ _) w2) as [s w3].
  destruct s as [err |].
  - destruct (syscall os (CloseHandle _) w3) as [c w4].
    repeat constructor; cbn; apply Z.eqb_refl.
  - specialize (IH (match g with inl d => d | inr _ => params end) w3).
    destruct (run os (Read_loop fuel port len _) w3) as [[a t] w4].
    unfold trace in *. cbn [fst snd] in *.
    repeat (constructor; [cbn; apply Z.eqb_refl |]). exact IH.
Qed.

(** No operation on a port reaches beyond it: every call that [Close],
    [Read], [Write], [SendBreak] and [SetMode] make is a call on the handle
    of the port, or the sleep of [SendBreak].  None of them opens a device,
    touches the registry, or uses another handle. *)
Theorem operations_stay_on_handle (os : OS) (port : SerialPort) (w : world os) :
  Forall (fun e => on_handle (handle port) e = true) (trace (run os (Close port) w))
  /\ (forall fuel len,
        Forall (fun e => on_handle (handle port) e = true)
               (trace (run os (Read fuel port len) w)))
  /\ (forall p,
        Forall (fun e => on_handle (handle port) e = true)
               (trace (run os (Write port p) w)))
  /\ (forall breakTime,
        Forall (fun e => on_handle (handle port) e = true)
               (trace (run os (SendBreak port breakTime) w)))
  /\ (forall mode,
        Forall (fun e => on_handle (handle port) e = true)
               (trace (run os (SetMode port mode) w))).
Proof.
  split; [| split; [| split; [| split]]].
  - rewrite run_Close. destruct (syscall os (CloseHandle _) w) as [c w1].
    repeat constructor. cbn. apply Z.eqb_refl.
  - intros fuel len. apply Read_loop_on_handle.
  - intros p. simpl. destruct (syscall os (WriteFile _ _) w) as [r w1].
    repeat constructor. cbn. apply Z.eqb_refl.
  - intros breakTime. simpl.
    destruct (syscall os (SetCommBreak _) w) as [[e |] w1]; simpl.
    + destruct (syscall os (CloseHandle _) w1) as [c w2].
      repeat constructor; cbn; apply Z.eqb_refl.
    + destruct (syscall os (Sleep _) w1) as [u w2]. simpl.
      destruct (syscall os (ClearCommBreak _) w2) as [[e |] w3]; simpl.
      * destruct (syscall os (CloseHandle _) w3) as [c w4].
        repeat constructor; cbn; try apply Z.eqb_refl.
      * repeat constructor; cbn; try apply Z.eqb_refl.
  - intros mode. rewrite run_SetMode. cbv zeta.
    destruct (syscall os (GetCommState _) w) as [[d | e] w1].
    + destruct (syscall os (SetCommState _ _) w1) as [[e |] w2].
      * destruct (syscall os (CloseHandle _) w2) as [c w3].
        repeat constructor; cbn; apply Z.eqb_refl.
      * repeat constructor; cbn; apply Z.eqb_refl.
    + destruct (syscall os (CloseHandle _) w1) as [c w2].
      repeat constructor; cbn; apply Z.eqb_refl.
Qed.

(** [SetMode] and [SendBreak] return an error exactly when they have closed
    the handle: a call that returns nil made no [CloseHandle], and a call
    that returns an error made one, as its last call, and the error is
    [ERROR_INVALID_SERIAL_PORT]. *)
Theorem error_means_closed (os : OS) (port : SerialPort) (w : world os) :
  (forall mode,
      (result (run os (SetMode port mode) w) = None
       /\ closes (handle port) (trace (run os (SetMode port mode) w)) = 0%nat)
      \/ (result (run os (SetMode port mode) w) =
          Some (SerialPortError ERROR_INVALID_SERIAL_PORT)
          /\ closes (handle port) (trace (run os (SetMode port mode) w)) = 1%nat
          /\ exists t c, trace (run os (SetMode port mode) w) =
                         t ++ [Ev (CloseHandle (handle port)) c]))
  /\ (forall breakTime,
      (result (run os (SendBreak port breakTime) w) = None
       /\ closes (handle port) (trace (run os (SendBreak port breakTime) w)) = 0%nat)
      \/ (result (run os (SendBreak port breakTime) w) =
          Some (SerialPortError ERROR_INVALID_SERIAL_PORT)
          /\ closes (handle port) (trace (run os (SendBreak port breakTime) w)) = 1%nat
          /\ exists t c, trace (run os (SendBreak port breakTime) w) =
                         t ++ [Ev (CloseHandle (handle port)) c])).
Proof.
  split.
  - intros mode. rewrite run_SetMode. cbv zeta.
    destruct (syscall os (GetCommState _) w) as [[d | e] w1].
    + destruct (syscall os (SetCommState _ _) w1) as [[e |] w2].
      * destruct (syscall os (CloseHandle _) w2) as [c w3].
        right. unfold result, trace. cbn. rewrite Z.eqb_refl.
        split; [reflexivity |]. split; [reflexivity |].
        exists [Ev (GetCommState (handle port)) (inl d);
                Ev (SetCommState (handle port) (apply_mode mode d)) (Some e)], c.
        reflexivity.
      * left. split; reflexivity.
    + destruct (syscall os (CloseHandle _) w1) as [c w2].
      right. unfold result, trace. cbn. rewrite Z.eqb_refl.
      split; [reflexivity |]. split; [reflexivity |].
      exists [Ev (GetCommState (handle port)) (inr e)], c. reflexivity.
  - intros breakTime. simpl.
    destruct (syscall os (SetCommBreak _) w) as [[e |] w1]; simpl.
    + destruct (syscall os (CloseHandle _) w1) as [c w2].
      right. unfold result, trace. cbn. rewrite Z.eqb_refl.
      split; [reflexivity |]. split; [reflexivity |].
      exists [Ev (SetCommBreak (handle port)) (Some e)], c. reflexivity.
    + destruct (syscall os (Sleep _) w1) as [u w2]. simpl.
      destruct (syscall os (ClearCommBreak _) w2) as [[e |] w3]; simpl.
      * destruct (syscall os (CloseHandle _) w3) as [c w4].
        right. unfold result, trace. cbn. rewrite Z.eqb_refl.
        split; [reflexivity |]. split; [reflexivity |].
        exists [Ev (SetCommBreak (handle port)) None;
                Ev (Sleep (Duration_ms breakTime)) u;
                Ev (ClearCommBreak (handle port)) (Some e)], c.
        reflexivity.
      * left. split; reflexivity.
Qed.

(* ===================================================================== *)
(** ** Further properties of [OpenPort] *)
(* ===================================================================== *)

Lemma SetMode_success_trace (os : OS) (port : SerialPort) (mode : Mode)
    (w : world os) :
  result (run os (SetMode port mode) w) = None ->
  exists d,
    trace (run os (SetMode port mode) w) =
    [Ev (GetCommState (handle port)) (inl d);
     Ev (SetCommState (handle port) (apply_mode mode d)) None].
Proof.
  rewrite run_SetMode. cbv zeta.
  destruct (syscall os (GetCommState _) w) as [[d | e] w1].
  - destruct (syscall os (SetCommState _ _) w1) as [[e |] w2].
    + destruct (syscall os (CloseHandle _) w2) as [c w3]. discriminate.
    + intros _. exists d. reflexivity.
  - destruct (syscall os (CloseHandle _) w1) as [c w2]. discriminate.
Qed.

Lemma has_nul_device_path (portName : string) :
  has_nul ((backslash +:+ backslash +:+ "." +:+ backslash) +:+ portName) =
  has_nul portName.
Proof. reflexivity. Qed.

(** A port name with a NUL byte is refused with [EINVAL] before any call is
    made; any other name is opened under the device path made of the four
    characters backslash, backslash, dot, backslash and the name as given. *)
Theorem OpenPort_device_path (os : OS) (portName : string) (mode : Mode)
    (w : world os) :
  (has_nul portName = true ->
   run os (OpenPort portName mode) w = ((None, Some (SysError EINVAL)), [], w))
  /\ (has_nul portName = false ->
      exists r t,
        trace (run os (OpenPort portName mode) w) =
        Ev (CreateFile (String (Ascii.ascii_of_nat 92)
                          (String (Ascii.ascii_of_nat 92)
                             (String (Ascii.ascii_of_nat 46)
                                (String (Ascii.ascii_of_nat 92) portName))))) r
          :: t).
Proof.
  split; intros Hn; rewrite run_OpenPort; unfold UTF16PtrFromString;
    rewrite has_nul_device_path, Hn; [reflexivity |].
  destruct (syscall os (CreateFile _) w) as [[h | e] w1].
  2: { eexists. eexists. reflexivity. }
  unfold close_and_fail.
  destruct (run os (SetMode _ mode) w1) as [[m t1] w2].
  destruct m as [e |].
  { destruct (syscall os (CloseHandle h) w2) as [c w3]. eexists. eexists. reflexivity. }
  destruct (syscall os (GetCommState h) w2) as [[d | e] w3].
  2: { destruct (syscall os (CloseHandle h) w3) as [c w4]. eexists. eexists. reflexivity. }
  destruct (syscall os (SetCommState h _) w3) as [[e |] w4].
  { destruct (syscall os (CloseHandle h) w4) as [c w5]. eexists. eexists. reflexivity. }
  destruct (syscall os (SetCommTimeouts h _) w4) as [[e |] w5].
  { destruct (syscall os (CloseHandle h) w5) as [c w6]. eexists. eexists. reflexivity. }
  eexists. eexists. reflexivity.
Qed.

(** On the reference machine: a name with a NUL byte, and [COM1]. *)
Lemma OpenPort_device_path_witness :
  run Windows (OpenPort (String Ascii.zero "COM1") mode_default)
      (boot good_driver default_dcb [] []) =
  ((None, Some (SysError EINVAL)), [], boot good_driver default_dcb [] [])
  /\ exists r t,
      trace (run Windows (OpenPort "COM1" mode_default)
               (boot good_driver default_dcb [] [])) =
      Ev (CreateFile COM1_path) r :: t.
Proof.
  split.
  - apply (proj1 (OpenPort_device_path Windows (String Ascii.zero "COM1") mode_default
                    (boot good_driver default_dcb [] []))).
    reflexivity.
  - apply (proj2 (OpenPort_device_path Windows "COM1" mode_default
                    (boot good_driver default_dcb [] []))).
    reflexivity.
Defined.

(** A successful [OpenPort] has made exactly six calls, all of them
    successful: it opened the device, fetched the control record and wrote
    it back with the mode applied, fetched it again and wrote it back with
    the fixed policy applied, and installed the fixed timeouts.  The port
    returned holds the handle [CreateFile] gave, and that handle was never
    closed. *)
Theorem OpenPort_success_trace (os : OS) (portName : string) (mode : Mode)
    (w : world os) (port : SerialPort) :
  result (run os (OpenPort portName mode) w) = (Some port, None) ->
  has_nul portName = false
  /\ closes (handle port) (trace (run os (OpenPort portName mode) w)) = 0%nat
  /\ exists d0 d1,
      trace (run os (OpenPort portName mode) w) =
      [Ev (CreateFile ((backslash +:+ backslash +:+ "." +:+ backslash) +:+ portName))
          (inl (handle port));
       Ev (GetCommState (handle port)) (inl d0);
       Ev (SetCommState (handle port) (apply_mode mode d0)) None;
       Ev (GetCommState (handle port)) (inl d1);
       Ev (SetCommState (handle port) (apply_policy d1)) None;
       Ev (SetCommTimeouts (handle port) open_timeouts) None].
Proof.
  rewrite run_OpenPort. unfold UTF16PtrFromString, close_and_fail.
  rewrite has_nul_device_path.
  destruct (has_nul portName); [discriminate |].
  destruct (syscall os (CreateFile _) w) as [[h | e] w1]; [| discriminate].
  pose proof (SetMode_success_trace os {| handle := h |} mode w1) as Hm.
  destruct (run os (SetMode _ mode) w1) as [[m t1] w2].
  destruct m as [e |].
  { destruct (syscall os (CloseHandle h) w2) as [c w3]. discriminate. }
  destruct (Hm eq_refl) as (d0 & Ht). unfold trace in Ht. cbn [fst snd handle] in Ht.
  subst t1.
  destruct (syscall os (GetCommState h) w2) as [[d1 | e] w3].
  2: { destruct (syscall os (CloseHandle h) w3) as [c w4]. discriminate. }
  destruct (syscall os (SetCommState h _) w3) as [[e |] w4].
  { destruct (syscall os (CloseHandle h) w4) as [c w5]. discriminate. }
  destruct (syscall os (SetCommTimeouts h _) w4) as [[e |] w5].
  { destruct (syscall os (CloseHandle h) w5) as [c w6]. discriminate. }
  unfold result, trace. cbn [fst snd]. intros [= <-]. cbn [handle].
  split; [reflexivity |]. split; [reflexivity |].
  exists d0, d1. reflexivity.
Qed.

(** On the reference machine. *)
Lemma OpenPort_success_trace_witness :
  has_nul "COM1" = false
  /\ closes COM1 (trace (run Windows (OpenPort "COM1" mode_default)
                           (boot good_driver default_dcb [] []))) = 0%nat
  /\ exists d0 d1,
      trace (run Windows (OpenPort "COM1" mode_default)
               (boot good_driver default_dcb [] [])) =
      [Ev (CreateFile COM1_path) (inl COM1);
       Ev (GetCommState COM1) (inl d0);
       Ev (SetCommState COM1 (apply_mode mode_default d0)) None;
       Ev (GetCommState COM1) (inl d1);
       Ev (SetCommState COM1 (apply_policy d1)) None;
       Ev (SetCommTimeouts COM1 open_timeouts) None].
Proof.
  apply (OpenPort_success_trace Windows "COM1" mode_default
           (boot good_driver default_dcb [] []) port4).
  reflexivity.
Defined.

(** No handle is leaked: once [CreateFile] has given a handle, [OpenPort]
    either returns the port holding it, without having closed it, or
    returns [ERROR_INVALID_SERIAL_PORT] with no port after closing the
    handle as its last call. *)
Theorem OpenPort_no_leak (os : OS) (portName : string) (mode : Mode)
    (w w1 : world os) (h : Handle) :
  has_nul portName = false ->
  syscall os (CreateFile ((backslash +:+ backslash +:+ "." +:+ backslash) +:+ portName)) w
  = (inl h, w1) ->
  (result (run os (OpenPort portName mode) w) = (Some {| handle := h |}, None)
   /\ closes h (trace (run os (OpenPort portName mode) w)) = 0%nat)
  \/ (result (run os (OpenPort portName mode) w) =
      (None, Some (SerialPortError ERROR_INVALID_SERIAL_PORT))
      /\ (1 <= closes h (trace (run os (OpenPort portName mode) w)))%nat
      /\ exists t c, trace (run os (OpenPort portName mode) w) =
                     t ++ [Ev (CloseHandle h) c]).
Proof.
  intros Hn Hc.
  rewrite run_OpenPort. unfold UTF16PtrFromString, close_and_fail.
  rewrite has_nul_device_path, Hn, Hc.
  pose proof (SetMode_success_trace os {| handle := h |} mode w1) as Hm.
  destruct (run os (SetMode _ mode) w1) as [[m t1] w2].
  assert (Hlast : forall (t : list event) c,
             (1 <= closes h (t ++ [Ev (CloseHandle h) c]))%nat).
  { intros t c. rewrite closes_app. cbn. rewrite Z.eqb_refl. lia. }
  destruct m as [e |].
  { destruct (syscall os (CloseHandle h) w2) as [c w3]. right.
    unfold result, trace. cbn [fst snd].
    split; [reflexivity |]. split; [apply Hlast | eauto]. }
  destruct (Hm eq_refl) as (d0 & Ht). unfold trace in Ht. cbn [fst snd handle] in Ht.
  subst t1.
  destruct (syscall os (GetCommState h) w2) as [[d1 | e] w3].
  2: { destruct (syscall os (CloseHandle h) w3) as [c w4]. right.
       unfold result, trace. cbn [fst snd].
       split; [reflexivity |]. split; [apply Hlast | eauto]. }
  destruct (syscall os (SetCommState h _) w3) as [[e |] w4].
  { destruct (syscall os (CloseHandle h) w4) as [c w5]. right.
    unfold result, trace. cbn [fst snd].
    split; [reflexivity |]. split; [apply Hlast | eauto]. }
  destruct (syscall os (SetCommTimeouts h _) w4) as [[e |] w5].
  { destruct (syscall os (CloseHandle h) w5) as [c w6]. right.
    unfold result, trace. cbn [fst snd].
    split; [reflexivity |]. split; [apply Hlast | eauto]. }
  left. split; reflexivity.
Qed.

(** On the reference machine: an accepted mode and a refused baud rate. *)
Lemma OpenPort_no_leak_witness :
  ((result (run Windows (OpenPort "COM1" mode_default)
              (boot good_driver default_dcb [] [])) = (Some port4, None)
    /\ closes COM1 (trace (run Windows (OpenPort "COM1" mode_default)
                             (boot good_driver default_dcb [] []))) = 0%nat)
   \/ (result (run Windows (OpenPort "COM1" mode_default)
                 (boot good_driver default_dcb [] [])) =
       (None, Some (SerialPortError ERROR_INVALID_SERIAL_PORT))
       /\ (1 <= closes COM1 (trace (run Windows (OpenPort "COM1" mode_default)
                                      (boot good_driver default_dcb [] []))))%nat
       /\ exists t c,
           trace (run Windows (OpenPort "COM1" mode_default)
                    (boot good_driver default_dcb [] [])) =
           t ++ [Ev (CloseHandle COM1) c])).
Proof.
  apply (OpenPort_no_leak Windows "COM1" mode_default
           (boot good_driver default_dcb [] [])
           (opened good_driver default_dcb [] []) COM1);
    reflexivity.
Defined.

(** When [SetMode] has succeeded and a later step of [OpenPort] fails, the
    handle is closed exactly once: the failed call (the second fetch of the
    control record, the write of the record with the policy applied, or the
    installation of the timeouts) is followed by the one [CloseHandle], and
    [ERROR_INVALID_SERIAL_PORT] is returned. *)
Theorem OpenPort_late_failure (os : OS) (portName : string) (mode : Mode)
    (w w1 : world os) (h : Handle) (err : error) :
  has_nul portName = false ->
  syscall os (CreateFile ((backslash +:+ backslash +:+ "." +:+ backslash) +:+ portName)) w
  = (inl h, w1) ->
  result (run os (SetMode {| handle := h |} mode) w1) = None ->
  result (run os (OpenPort portName mode) w) = (None, Some err) ->
  err = SerialPortError ERROR_INVALID_SERIAL_PORT
  /\ closes h (trace (run os (OpenPort portName mode) w)) = 1%nat
  /\ ((exists t x c,
          trace (run os (OpenPort portName mode) w) =
          t ++ [Ev (GetCommState h) (inr x); Ev (CloseHandle h) c])
      \/ (exists t d x c,
          trace (run os (OpenPort portName mode) w) =
          t ++ [Ev (SetCommState h (apply_policy d)) (Some x); Ev (CloseHandle h) c])
      \/ (exists t x c,
          trace (run os (OpenPort portName mode) w) =
          t ++ [Ev (SetCommTimeouts h open_timeouts) (Some x); Ev (CloseHandle h) c])).
Proof.
  intros Hn Hc Hm.
  rewrite run_OpenPort. unfold UTF16PtrFromString, close_and_fail.
  rewrite has_nul_device_path, Hn, Hc.
  destruct (SetMode_success_trace os {| handle := h |} mode w1 Hm) as (d0 & Ht).
  destruct (run os (SetMode _ mode) w1) as [[m t1] w2].
  unfold result in Hm. unfold trace in Ht. cbn [fst snd handle] in Hm, Ht.
  subst m t1.
  destruct (syscall os (GetCommState h) w2) as [[d1 | e] w3].
  2: { destruct (syscall os (CloseHandle h) w3) as [c w4].
       unfold result, trace. cbn [fst snd]. intros [= <-].
       split; [reflexivity |]. split; [cbn; rewrite Z.eqb_refl; reflexivity |].
       left.
       exists [Ev (CreateFile ((backslash +:+ backslash +:+ "." +:+ backslash) +:+ portName))
                  (inl h);
               Ev (GetCommState h) (inl d0);
               Ev (SetCommState h (apply_mode mode d0)) None], e, c.
       reflexivity. }
  destruct (syscall os (SetCommState h _) w3) as [[e |] w4].
  { destruct (syscall os (CloseHandle h) w4) as [c w5].
    unfold result, trace. cbn [fst snd]. intros [= <-].
    split; [reflexivity |]. split; [cbn; rewrite Z.eqb_refl; reflexivity |].
    right. left.
    exists [Ev (CreateFile ((backslash +:+ backslash +:+ "." +:+ backslash) +:+ portName))
               (inl h);
            Ev (GetCommState h) (inl d0);
            Ev (SetCommState h (apply_mode mode d0)) None;
            Ev (GetCommState h) (inl d1)], d1, e, c.
    reflexivity. }
  destruct (syscall os (SetCommTimeouts h _) w4) as [[e |] w5].
  { destruct (syscall os (CloseHandle h) w5) as [c w6].
    unfold result, trace. cbn [fst snd]. intros [= <-].
    split; [reflexivity |]. split; [cbn; rewrite Z.eqb_refl; reflexivity |].
    right. right.
    exists [Ev (CreateFile ((backslash +:+ backslash +:+ "." +:+ backslash) +:+ portName))
               (inl h);
            Ev (GetCommState h) (inl d0);
            Ev (SetCommState h (apply_mode mode d0)) None;
            Ev (GetCommState h) (inl d1);
            Ev (SetCommState h (apply_policy d1)) None], e, c.
    reflexivity. }
  discriminate.
Qed.

(** On the reference machine, at a device left with DTR handshaking: the
    mode is applied, the record with the policy applied is refused, and the
    handle is closed once. *)
Lemma OpenPort_late_failure_witness :
  closes COM1 (trace (run Windows (OpenPort "COM1" mode_default)
                        (boot good_driver dtr_handshake_dcb [] []))) = 1%nat
  /\ result (run Windows (OpenPort "COM1" mode_default)
               (boot good_driver dtr_handshake_dcb [] [])) =
     (None, Some (SerialPortError ERROR_INVALID_SERIAL_PORT)).
Proof.
  destruct (OpenPort_late_failure Windows "COM1" mode_default
              (boot good_driver dtr_handshake_dcb [] [])
              (opened good_driver dtr_handshake_dcb [] []) COM1
              (SerialPortError ERROR_INVALID_SERIAL_PORT)
              eq_refl eq_refl eq_refl eq_refl)
    as (_ & Hcl & _).
  split; [exact Hcl | reflexivity].
Defined.

(** Every error [OpenPort] can return, and what it tells: [EINVAL] for a
    name with a NUL byte, before any call; [ERROR_PORT_BUSY],
    [ERROR_PORT_NOT_FOUND] or the platform error itself when [CreateFile] was
    the only call and failed with access denied, file not found or another
    error; and [ERROR_INVALID_SERIAL_PORT] when the device was opened, could
    not be configured and was closed again. *)
Theorem OpenPort_errors (os : OS) (portName : string) (mode : Mode)
    (w : world os) (err : error) :
  result (run os (OpenPort portName mode) w) = (None, Some err) ->
  (err = SysError EINVAL /\ has_nul portName = true
   /\ trace (run os (OpenPort portName mode) w) = [])
  \/ (exists e,
         trace (run os (OpenPort portName mode) w) =
         [Ev (CreateFile ((backslash +:+ backslash +:+ "." +:+ backslash) +:+ portName))
             (inr e)]
         /\ ((e = ERROR_ACCESS_DENIED /\ err = SerialPortError ERROR_PORT_BUSY)
             \/ (e = ERROR_FILE_NOT_FOUND /\ err = SerialPortError ERROR_PORT_NOT_FOUND)
             \/ (e <> ERROR_ACCESS_DENIED /\ e <> ERROR_FILE_NOT_FOUND
                 /\ err = SysError e)))
  \/ (err = SerialPortError ERROR_INVALID_SERIAL_PORT
      /\ exists h t c,
          trace (run os (OpenPort portName mode) w) =
          Ev (CreateFile ((backslash +:+ backslash +:+ "." +:+ backslash) +:+ portName))
             (inl h) :: t ++ [Ev (CloseHandle h) c]).
Proof.
  rewrite run_OpenPort. unfold UTF16PtrFromString, close_and_fail.
  rewrite has_nul_device_path.
  destruct (has_nul portName).
  { unfold result, trace. cbn [fst snd]. intros [= <-]. left. repeat split. }
  destruct (syscall os (CreateFile _) w) as [[h | e] w1].
  2: { unfold result, trace. cbn [fst snd]. intros [= <-]. right. left.
       exists e. split; [reflexivity |]. unfold open_error.
       destruct (e =? ERROR_ACCESS_DENIED) eqn:Ha.
       { apply Z.eqb_eq in Ha. left. split; [exact Ha | reflexivity]. }
       apply Z.eqb_neq in Ha.
       destruct (e =? ERROR_FILE_NOT_FOUND) eqn:Hf.
       { apply Z.eqb_eq in Hf. right. left. split; [exact Hf | reflexivity]. }
       apply Z.eqb_neq in Hf. right. right. repeat split; assumption. }
  destruct (run os (SetMode _ mode) w1) as [[m t1] w2].
  destruct m as [e |].
  { destruct (syscall os (CloseHandle h) w2) as [c w3].
    unfold result, trace. cbn [fst snd]. intros [= <-]. right. right.
    split; [reflexivity |]. exists h, t1, c. reflexivity. }
  destruct (syscall os (GetCommState h) w2) as [[d1 | e] w3].
  2: { destruct (syscall os (CloseHandle h) w3) as [c w4].
       unfold result, trace. cbn [fst snd]. intros [= <-]. right. right.
       split; [reflexivity |]. eexists h, _, c. reflexivity. }
  destruct (syscall os (SetCommState h _) w3) as [[e |] w4].
  { destruct (syscall os (CloseHandle h) w4) as [c w5].
    unfold result, trace. cbn [fst snd]. intros [= <-]. right. right.
    split; [reflexivity |]. eexists h, _, c. reflexivity. }
  destruct (syscall os (SetCommTimeouts h _) w4) as [[e |] w5].
  { destruct (syscall os (CloseHandle h) w5) as [c w6].
    unfold result, trace. cbn [fst snd]. intros [= <-]. right. right.
    split; [reflexivity |]. eexists h, _, c. reflexivity. }
  discriminate.
Qed.

(** On the reference machine: a port that does not exist. *)
Lemma OpenPort_errors_witness :
  exists e,
    trace (run Windows (OpenPort "COM9" mode_default)
             (boot good_driver default_dcb [] [])) =
    [Ev (CreateFile ((backslash +:+ backslash +:+ "." +:+ backslash) +:+ "COM9"))
        (inr e)]
    /\ e = ERROR_FILE_NOT_FOUND.
Proof.
  destruct (OpenPort_errors Windows "COM9" mode_default
              (boot good_driver default_dcb [] [])
              (SerialPortError ERROR_PORT_NOT_FOUND) eq_refl)
    as [(He & _) | [(e & Ht & Hcase) | (He & _)]];
    [discriminate He | | discriminate He].
  exists e. split; [exact Ht |].
  destruct Hcase as [(_ & He) | [(He & _) | (_ & _ & He)]];
    [discriminate He | exact He | discriminate He].
Defined.

(* ===================================================================== *)
(** ** Further properties of [GetPortsList] *)
(* ===================================================================== *)

Lemma enum_indices_app (t1 t2 : list event) :
  enum_indices (t1 ++ t2) = enum_indices t1 ++ enum_indices t2.
Proof.
  induction t1 as [| e t1 IH]; [reflexivity |].
  cbn [app enum_indices]. destruct (enum_index e); rewrite IH; reflexivity.
Qed.

(** The loop asks for the values in the order of its indices and stops at
    the first that fails; it never closes a key. *)
Lemma enum_values_calls (os : OS) (key : Handle) (indices : list nat) :
  forall (names : list string) (w : world os),
    (exists k,
        (k <= length indices)%nat
        /\ enum_indices (trace (run os (enum_values key indices names) w)) =
           map (fun i => uint32 (Z.of_nat i)) (take k indices)
        /\ (result (run os (enum_values key indices names) w) <> None ->
            k = length indices))
    /\ forall key', key_closes key' (trace (run os (enum_values key indices names) w))
                    = 0%nat.
Proof.
  induction indices as [| i rest IH]; intros names w.
  - split; [| reflexivity]. exists 0%nat. repeat split. lia.
  - cbn [enum_values run bind sys].
    destruct (syscall os (RegEnumValue _ _) w) as [[data | e] w1].
    + specialize (IH (<[i := UTF16ToString (buffer 1024 data)]> names) w1).
      destruct (run os (enum_values key rest _) w1) as [[a t] w2].
      unfold result, trace in *. cbn [fst snd] in *.
      destruct IH as ((k & Hk & Hidx & Hres) & Hclose).
      split; [| intros key'; cbn; apply Hclose].
      exists (S k). split; [simpl; lia |]. split.
      * cbn. rewrite Hidx. reflexivity.
      * intros Ha. simpl. f_equal. apply Hres. exact Ha.
    + unfold result, trace. cbn [fst snd]. split; [| reflexivity].
      exists 1%nat. split; [simpl; lia |]. split; [reflexivity |].
      intros H. exfalso. apply H. reflexivity.
Qed.

(** The registry key never stays open: when [RegOpenKeyEx] fails it is the
    only call, and when it gives a key, that key is closed exactly once, by
    the last call, on every way out (the query failed, a value could not be
    read, or the list is complete). *)
Theorem GetPortsList_closes_key (os : OS) (w : world os) :
  (exists e,
      trace (run os GetPortsList w) = [Ev (RegOpenKeyEx SERIALCOMM) (inr e)])
  \/ (exists key t c,
         trace (run os GetPortsList w) =
         Ev (RegOpenKeyEx SERIALCOMM) (inl key) :: t ++ [Ev (RegCloseKey key) c]
         /\ key_closes key t = 0%nat
         /\ key_closes key (trace (run os GetPortsList w)) = 1%nat).
Proof.
  rewrite run_GetPortsList.
  destruct (syscall os (RegOpenKeyEx SERIALCOMM) w) as [[h | e] w1].
  2: { left. exists e. reflexivity. }
  right.
  assert (Hlast : forall (t : list event) c,
             key_closes h t = 0%nat ->
             key_closes h (Ev (RegOpenKeyEx SERIALCOMM) (inl h)
                             :: t ++ [Ev (RegCloseKey h) c]) = 1%nat).
  { intros t c Ht. cbn [key_closes].
    induction t as [| [c0 r0] t IHt].
    - cbn. rewrite Z.eqb_refl. reflexivity.
    - destruct c0; cbn [key_closes app] in *; try (apply IHt; exact Ht).
      destruct (Z.eqb key h); [discriminate |]. apply IHt. exact Ht. }
  destruct (syscall os (RegQueryInfoKey h) w1) as [[n | e] w2].
  2: { destruct (syscall os (RegCloseKey h) w2) as [c w3].
       exists h, [Ev (RegQueryInfoKey h) (inr e)], c.
       unfold trace. cbn [fst snd].
       split; [reflexivity |]. split; [reflexivity |].
       apply (Hlast [Ev (RegQueryInfoKey h) (inr e)] c). reflexivity. }
  cbv zeta.
  destruct (enum_values_calls os h
              (seq 0 (length (replicate (Z.to_nat n) EmptyString)))
              (replicate (Z.to_nat n) EmptyString) w2) as (_ & Hclose).
  specialize (Hclose h).
  destruct (run os (enum_values h _ _) w2) as [[l t] w3].
  destruct (syscall os (RegCloseKey h) w3) as [c w4].
  unfold trace in *. cbn [fst snd] in *.
  exists h, (Ev (RegQueryInfoKey h) (inl n) :: t), c.
  split; [reflexivity |]. split; [exact Hclose |].
  apply (Hlast (Ev (RegQueryInfoKey h) (inl n) :: t) c). exact Hclose.
Qed.

Lemma enum_requests_app (t1 t2 : list event) :
  enum_requests (t1 ++ t2) = enum_requests t1 ++ enum_requests t2.
Proof.
  induction t1 as [| e t1 IH]; [reflexivity |].
  cbn [app enum_requests]. destruct (enum_request e); rewrite IH; reflexivity.
Qed.

(** The requests of the loop: all of its indices in order, each answered,
    when it runs to its end; and when it returns early, the indices up to
    the one that failed, which is the last request. *)
Lemma enum_values_requests (os : OS) (key : Handle) (indices : list nat) :
  forall (names : list string) (w : world os),
    match result (run os (enum_values key indices names) w) with
    | Some _ =>
        enum_requests (trace (run os (enum_values key indices names) w)) =
        map (fun i => (uint32 (Z.of_nat i), true)) indices
    | None =>
        exists pre i post,
          indices = pre ++ i :: post
          /\ enum_requests (trace (run os (enum_values key indices names) w)) =
             map (fun i => (uint32 (Z.of_nat i), true)) pre
             ++ [(uint32 (Z.of_nat i), false)]
    end.
Proof.
  induction indices as [| i rest IH]; intros names w; [reflexivity |].
  cbn [enum_values run bind sys].
  destruct (syscall os (RegEnumValue _ _) w) as [[data | e] w1].
  - specialize (IH (<[i := UTF16ToString (buffer 1024 data)]> names) w1).
    destruct (run os (enum_values key rest _) w1) as [[a t] w2].
    unfold result, trace in *. cbn [fst snd] in *.
    destruct a as [l |].
    + cbn. rewrite IH. reflexivity.
    + destruct IH as (pre & j & post & -> & Hreq).
      exists (i :: pre), j, post. split; [reflexivity |].
      cbn. rewrite Hreq. reflexivity.
  - unfold result, trace. cbn [fst snd].
    exists [], i, rest. split; reflexivity.
Qed.

Lemma seq_split (n : nat) (pre post : list nat) (i : nat) :
  seq 0 n = pre ++ i :: post -> pre = seq 0 i.
Proof.
  intros H.
  assert (Hi : seq 0 n !! length pre = Some i).
  { rewrite H. apply list_lookup_middle. reflexivity. }
  apply lookup_seq in Hi as [Hi Hlt]. cbn [Nat.add] in Hi. subst i.
  transitivity (take (length pre) (seq 0 n)).
  - rewrite H. symmetry. apply take_app_length.
  - rewrite take_seq. f_equal. lia.
Qed.

(** The values are asked for in index order from 0, each index once and none
    skipped, and the enumeration stops at the first failure.  A run returns
    a list after asking for exactly as many values as the list has names,
    all answered; or it returns the error without having asked for any
    value (the key could not be opened or queried); or it returns the error
    after a request that failed, which is the last request and follows the
    answered requests for all lower indices. *)
Theorem GetPortsList_enumeration_order (os : OS) (w : world os) :
  (exists names,
      result (run os GetPortsList w) = (Some names, None)
      /\ enum_requests (trace (run os GetPortsList w)) =
         map (fun i => (uint32 (Z.of_nat i), true)) (seq 0 (length names)))
  \/ (result (run os GetPortsList w) =
      (None, Some (SerialPortError ERROR_ENUMERATING_PORTS))
      /\ enum_requests (trace (run os GetPortsList w)) = [])
  \/ (exists k,
         result (run os GetPortsList w) =
         (None, Some (SerialPortError ERROR_ENUMERATING_PORTS))
         /\ enum_requests (trace (run os GetPortsList w)) =
            map (fun i => (uint32 (Z.of_nat i), true)) (seq 0 k)
            ++ [(uint32 (Z.of_nat k), false)]).
Proof.
  rewrite run_GetPortsList.
  destruct (syscall os (RegOpenKeyEx SERIALCOMM) w) as [[h | e] w1].
  2: { right. left. split; reflexivity. }
  destruct (syscall os (RegQueryInfoKey h) w1) as [[n | e] w2].
  2: { destruct (syscall os (RegCloseKey h) w2) as [c w3].
       right. left. split; reflexivity. }
  cbv zeta.
  pose proof (enum_values_requests os h
                (seq 0 (length (replicate (Z.to_nat n) EmptyString)))
                (replicate (Z.to_nat n) EmptyString) w2) as Hreq.
  pose proof (enum_values_complete os h
                (seq 0 (length (replicate (Z.to_nat n) EmptyString)))
                (replicate (Z.to_nat n) EmptyString) w2) as Hloop.
  destruct (run os (enum_values h _ _) w2) as [[l t] w3].
  destruct (syscall os (RegCloseKey h) w3) as [c w4].
  unfold result, trace in *. cbn [fst snd] in *.
  assert (Htrace : enum_requests
                     (Ev (RegOpenKeyEx SERIALCOMM) (inl h)
                        :: Ev (RegQueryInfoKey h) (inl n)
                        :: t ++ [Ev (RegCloseKey h) c]) = enum_requests t).
  { cbn [enum_requests enum_request]. rewrite enum_requests_app. cbn.
    apply app_nil_r. }
  rewrite Htrace.
  destruct l as [names |].
  - left. exists names. split; [reflexivity |].
    destruct (Hloop names) as (Hlen & _).
    { apply NoDup_ListNoDup, List.seq_NoDup. }
    { intros i Hi. apply List.in_seq in Hi. lia. }
    { reflexivity. }
    rewrite Hreq, Hlen. reflexivity.
  - right. right. destruct Hreq as (pre & i & post & Hsplit & Hreq).
    exists i. split; [reflexivity |].
    rewrite Hreq, (seq_split _ _ _ _ Hsplit). reflexivity.
Qed.

(** With a registry that loses its second value during the enumeration:
    index 0 is answered, index 1 fails, and nothing more is asked. *)
Lemma GetPortsList_enumeration_order_witness :
  enum_requests (trace (run shrinking_registry GetPortsList tt)) =
  [(0, true); (1, false)].
Proof.
  destruct (GetPortsList_enumeration_order shrinking_registry tt)
    as [(names & Hres & _) | [(_ & Hreq) | (k & _ & Hreq)]].
  - discriminate Hres.
  - discriminate Hreq.
  - reflexivity.
Defined.

(** A registry key without values gives the empty list and no error, after
    the three calls open, query, close and no attempt to read a value. *)
Theorem GetPortsList_no_ports (os : OS) (w w1 w2 w3 : world os) (key : Handle)
    (c : option Errno) :
  syscall os (RegOpenKeyEx SERIALCOMM) w = (inl key, w1) ->
  syscall os (RegQueryInfoKey key) w1 = (inl 0, w2) ->
  syscall os (RegCloseKey key) w2 = (c, w3) ->
  run os GetPortsList w =
  ((Some [], None),
   [Ev (RegOpenKeyEx SERIALCOMM) (inl key);
    Ev (RegQueryInfoKey key) (inl 0);
    Ev (RegCloseKey key) c], w3).
Proof.
  intros Ho Hq Hc. rewrite run_GetPortsList, Ho, Hq. cbv zeta.
  change (Z.to_nat 0) with 0%nat.
  cbn [replicate length seq enum_values run app]. rewrite Hc. reflexivity.
Qed.

(** On the reference machine with an empty key. *)
Lemma GetPortsList_no_ports_witness :
  run Windows GetPortsList (boot empty_registry_driver default_dcb [] []) =
  ((Some [], None),
   [Ev (RegOpenKeyEx SERIALCOMM) (inl KEY);
    Ev (RegQueryInfoKey KEY) (inl 0);
    Ev (RegCloseKey KEY) None],
   boot empty_registry_driver default_dcb [] []).
Proof.
  apply (GetPortsList_no_ports Windows
           (boot empty_registry_driver default_dcb [] [])
           (with_key true (boot empty_registry_driver default_dcb [] []))
           (with_key true (boot empty_registry_driver default_dcb [] []))
           (boot empty_registry_driver default_dcb [] []) KEY None);
    reflexivity.
Defined.

(* ===================================================================== *)
(** ** Further properties of the control block translation *)
(* ===================================================================== *)

Lemma DCB_eq (a b : DCB) :
  DCBlength a = DCBlength b -> BaudRate a = BaudRate b -> Flags a = Flags b ->
  wReserved a = wReserved b -> XonLim a = XonLim b -> XoffLim a = XoffLim b ->
  ByteSize a = ByteSize b -> Parity a = Parity b -> StopBits a = StopBits b ->
  XonChar a = XonChar b -> XoffChar a = XoffChar b -> ErrorChar a = ErrorChar b ->
  EofChar a = EofChar b -> EvtChar a = EvtChar b -> wReserved1 a = wReserved1 b ->
  a = b.
Proof. destruct a, b. simpl. intros. subst. reflexivity. Qed.

Lemma apply_policy_flags (d : DCB) :
  Flags (apply_policy d) = Z.lor (Z.land (Flags d) 0xFFFFB0B3) 0x1090.
Proof.
  unfold apply_policy.
  cbn [Flags set_Flags set_XonLim set_XoffLim set_XonChar set_XoffChar].
  cbv zeta. generalize (Flags d). intros x.
  rewrite !Z.land_lor_distr_l, <- !Z.land_assoc, <- !Z.lor_assoc.
  f_equal.
Qed.

(** What the overlay of [OpenPort] does to the packed flags, in one formula:
    it keeps the bits of the mask 0xFFFFB0B3 and sets the bits 0x1090.  So
    bits 4, 7 and 12 are set, bits 2, 3, 6, 8 to 11 and 14 are cleared, and
    every other bit of the 32 (binary mode, parity checking, the handshake
    bits 5 and 13, the reserved bits 15 to 31) is as fetched.  The result
    fits 32 bits whatever was fetched. *)
Theorem apply_policy_flag_bits (d : DCB) :
  Flags (apply_policy d) = Z.lor (Z.land (Flags d) 0xFFFFB0B3) 0x1090
  /\ 0 <= Flags (apply_policy d) < 2 ^ 32
  /\ (forall n, 15 <= n < 32 ->
        Z.testbit (Flags (apply_policy d)) n = Z.testbit (Flags d) n)
  /\ Z.testbit (Flags (apply_policy d)) 0 = Z.testbit (Flags d) 0
  /\ Z.testbit (Flags (apply_policy d)) 1 = Z.testbit (Flags d) 1
  /\ Z.testbit (Flags (apply_policy d)) 7 = true
  /\ Z.testbit (Flags (apply_policy d)) 6 = false
  /\ Z.testbit (Flags (apply_policy d)) 8 = false
  /\ Z.testbit (Flags (apply_policy d)) 9 = false
  /\ Z.testbit (Flags (apply_policy d)) 10 = false
  /\ Z.testbit (Flags (apply_policy d)) 11 = false
  /\ Z.testbit (Flags (apply_policy d)) 14 = false.
Proof.
  rewrite apply_policy_flags. generalize (Flags d). intros x.
  split; [reflexivity |]. split.
  { assert (H : Z.lor (Z.land x 0xFFFFB0B3) 0x1090 =
                Z.land (Z.lor (Z.land x 0xFFFFB0B3) 0x1090) (Z.ones 32)).
    { rewrite Z.land_lor_distr_l, <- Z.land_assoc. reflexivity. }
    rewrite H, Z.land_ones by lia. apply Z.mod_pos_bound. lia. }
  split.
  { intros n Hn. rewrite Z.lor_spec, Z.land_spec.
    assert (Hcases : n = 15 \/ n = 16 \/ n = 17 \/ n = 18 \/ n = 19 \/ n = 20
                     \/ n = 21 \/ n = 22 \/ n = 23 \/ n = 24 \/ n = 25 \/ n = 26
                     \/ n = 27 \/ n = 28 \/ n = 29 \/ n = 30 \/ n = 31) by lia.
    repeat (destruct Hcases as [-> | Hcases]); try subst n;
      cbn; rewrite andb_true_r, orb_false_r; reflexivity. }
  repeat split; rewrite Z.lor_spec, Z.land_spec; cbn;
    rewrite ?andb_true_r, ?andb_false_r, ?orb_false_r, ?orb_true_r; reflexivity.
Qed.

(** The overlay is idempotent: applying the policy to a record that already
    has it changes nothing, so opening a port again does not drift its
    control record. *)
Theorem apply_policy_idempotent (d : DCB) :
  apply_policy (apply_policy d) = apply_policy d.
Proof.
  apply DCB_eq; try reflexivity.
  rewrite !apply_policy_flags. generalize (Flags d). intros x.
  rewrite Z.land_lor_distr_l, <- Z.land_assoc, <- Z.lor_assoc. f_equal.
Qed.

(** The mode and the policy touch different fields: applying them in either
    order gives the same record, and the overlay keeps the baud rate, byte
    size, parity and stop bits that [SetMode] wrote, as it keeps every field
    but the flags, the two thresholds and the two flow control characters. *)
Theorem apply_mode_policy_commute (mode : Mode) (d : DCB) :
  apply_policy (apply_mode mode d) = apply_mode mode (apply_policy d)
  /\ BaudRate (apply_policy d) = BaudRate d
  /\ ByteSize (apply_policy d) = ByteSize d
  /\ Parity (apply_policy d) = Parity d
  /\ StopBits (apply_policy d) = StopBits d
  /\ DCBlength (apply_policy d) = DCBlength d
  /\ ErrorChar (apply_policy d) = ErrorChar d
  /\ EofChar (apply_policy d) = EofChar d
  /\ EvtChar (apply_policy d) = EvtChar d.
Proof.
  split; [| repeat split].
  unfold apply_mode.
  destruct (mode_BaudRate mode =? 0), (mode_DataBits mode =? 0); reflexivity.
Qed.

(** The last mode wins: what [SetMode] writes depends on the mode and on the
    fields of the fetched record it does not assign, so a mode applied over
    another leaves nothing of the first, and applying a mode twice is
    applying it once. *)
Theorem apply_mode_overrides (m1 m2 : Mode) (d : DCB) :
  apply_mode m2 (apply_mode m1 d) = apply_mode m2 d
  /\ apply_mode m2 (apply_mode m2 d) = apply_mode m2 d.
Proof.
  unfold apply_mode.
  destruct (mode_BaudRate m1 =? 0), (mode_DataBits m1 =? 0),
    (mode_BaudRate m2 =? 0), (mode_DataBits m2 =? 0); split; reflexivity.
Qed.

(** The four fields [SetMode] assigns always fit their width in the record:
    the baud rate 32 bits, the byte size, stop bits and parity 8 bits,
    whatever integers the mode holds. *)
Theorem apply_mode_in_range (mode : Mode) (d : DCB) :
  0 <= BaudRate (apply_mode mode d) < 2 ^ 32
  /\ 0 <= ByteSize (apply_mode mode d) < 2 ^ 8
  /\ 0 <= StopBits (apply_mode mode d) < 2 ^ 8
  /\ 0 <= Parity (apply_mode mode d) < 2 ^ 8.
Proof.
  unfold apply_mode, uint32, byte_of.
  destruct (mode_BaudRate mode =? 0), (mode_DataBits mode =? 0); cbn;
    repeat split; try lia; apply Z.mod_pos_bound; lia.
Qed.

(* ===================================================================== *)
(** ** Further properties of the decoding of port names *)
(* ===================================================================== *)

Lemma until_nul_buffer (n : nat) (a b : list Z) :
  Forall (fun v => v <> 0) a -> (length a < n)%nat ->
  until_nul (take n (a ++ 0 :: b)) = a.
Proof.
  intros Ha. revert n. induction Ha as [| v a Hv _ IH]; intros n Hn.
  - destruct n; [simpl in Hn; lia | reflexivity].
  - destruct n; [simpl in Hn; lia |].
    cbn [app take until_nul].
    destruct (v =? 0) eqn:Hz; [apply Z.eqb_eq in Hz; contradiction |].
    f_equal. apply IH. simpl in Hn. lia.
Qed.

Lemma ascii_units (s : string) :
  is_ascii_name s = true ->
  Forall (fun v => v <> 0) (units_of_string s)
  /\ length (units_of_string s) = String.length s
  /\ string_of_bytes
       (concat (map utf8_EncodeRune (utf16_Decode (units_of_string s)))) = s.
Proof.
  induction s as [| c s IH]; [repeat split; constructor |].
  cbn [is_ascii_name units_of_string]. intros H.
  apply andb_true_iff in H as [H Hs]. apply andb_true_iff in H as [H0 H1].
  apply Z.ltb_lt in H0, H1.
  destruct (IH Hs) as (Hnz & Hlen & Hdec).
  split; [constructor; [lia | exact Hnz] |].
  split; [simpl; rewrite Hlen; reflexivity |].
  cbn [utf16_Decode].
  assert (Hlow : (Z.of_N (Ascii.N_of_ascii c) <? 55296) = true)
    by (apply Z.ltb_lt; lia).
  rewrite Hlow. cbn [orb map concat]. unfold utf8_EncodeRune at 1.
  assert (Hasc : (Z.of_N (Ascii.N_of_ascii c) <? 128) = true)
    by (apply Z.ltb_lt; lia).
  rewrite Hasc. cbn [app string_of_bytes].
  rewrite N2Z.id, Ascii.ascii_N_embedding, Hdec. reflexivity.
Qed.

(** An ASCII port name shorter than the 1024 unit buffer is read back as it
    is stored: with its terminating NUL, whatever follows the terminator in
    the buffer, and also when the value is stored without a terminator,
    since the buffer starts zeroed. *)
Theorem port_name_decoded (s : string) (rest : list Z) :
  is_ascii_name s = true ->
  (String.length s < 1024)%nat ->
  UTF16ToString (buffer 1024 (units_of_string s ++ 0 :: rest)) = s
  /\ UTF16ToString (buffer 1024 (units_of_string s)) = s.
Proof.
  intros Hs Hlen.
  destruct (ascii_units s Hs) as (Hnz & Hl & Hdec).
  unfold UTF16ToString, buffer. split.
  - rewrite <- app_assoc. cbn [app].
    rewrite until_nul_buffer; [exact Hdec | exact Hnz | lia].
  - change (replicate 1024 0) with (0 :: replicate 1023 0).
    rewrite until_nul_buffer; [exact Hdec | exact Hnz | lia].
Qed.

(** The name [COM12], with two more units stored after its terminator. *)
Lemma port_name_decoded_witness :
  UTF16ToString (buffer 1024 (units_of_string "COM12" ++ 0 :: [88; 89])) = "COM12"
  /\ UTF16ToString (buffer 1024 (units_of_string "COM12")) = "COM12".
Proof.
  apply (port_name_decoded "COM12" [88; 89]).
  - reflexivity.
  - simpl. lia.
Defined.

Lemma decode_terminated (s : string) :
  is_ascii_name s = true ->
  (String.length s < 1024)%nat ->
  UTF16ToString (buffer 1024 (units_of_string s ++ [0])) = s.
Proof.
  intros Hs Hlen. destruct (ascii_units s Hs) as (Hnz & Hl & Hdec).
  unfold UTF16ToString, buffer. rewrite <- app_assoc. cbn [app].
  rewrite until_nul_buffer; [exact Hdec | exact Hnz | lia].
Qed.

(** The enumeration loop over a registry that keeps answering with the
    stored names: it runs to its end and puts every name at its index. *)
Lemma enum_values_reads (os : OS) (key : Handle) (I : world os -> Prop)
    (stored : list string) :
  (forall i name w,
      I w -> stored !! i = Some name ->
      exists w', syscall os (RegEnumValue key (uint32 (Z.of_nat i))) w
                 = (inl (units_of_string name ++ [0]), w') /\ I w') ->
  Forall (fun name => is_ascii_name name = true
                      /\ (String.length name < 1024)%nat) stored ->
  forall (indices : list nat) (names : list string) (w : world os),
    I w -> NoDup indices ->
    (forall i, In i indices -> (i < length names)%nat /\ (i < length stored)%nat) ->
    exists l t w',
      run os (enum_values key indices names) w = (Some l, t, w')
      /\ I w' /\ length l = length names
      /\ (forall i, In i indices -> l !! i = stored !! i)
      /\ (forall j, ~ In j indices -> l !! j = names !! j).
Proof.
  intros Hen Hascii.
  induction indices as [| i rest IH]; intros names w Hw Hnd Hlt.
  - exists names, [], w. repeat split; [exact Hw | intros i []].
  - apply NoDup_cons in Hnd as [Hi Hnd]. rewrite list_elem_of_In in Hi.
    destruct (Hlt i (or_introl eq_refl)) as [Hin His].
    destruct (lookup_lt_is_Some_2 stored i His) as [name Hname].
    destruct (Hen i name w Hw Hname) as (w1 & Hcall & Hw1).
    cbn [enum_values run bind sys]. rewrite Hcall.
    destruct (IH (<[i := UTF16ToString (buffer 1024 (units_of_string name ++ [0]))]> names)
                w1 Hw1 Hnd) as (l & t & w2 & Hrun & Hw2 & Hlen & Hl & Hout).
    { intros j Hj. rewrite length_insert. apply Hlt. right. exact Hj. }
    rewrite Hrun. eexists l, _, w2. split; [reflexivity |].
    split; [exact Hw2 |]. rewrite length_insert in Hlen. split; [exact Hlen |].
    split.
    + intros j [<- | Hj]; [| apply Hl; exact Hj].
      rewrite (Hout i Hi), list_lookup_insert_eq by exact Hin.
      rewrite Hname. f_equal.
      rewrite Forall_forall in Hascii.
      destruct (Hascii name) as [Ha Hs].
      { apply list_elem_of_lookup. exists i. exact Hname. }
      apply decode_terminated; assumption.
    + intros j Hj. rewrite Hout.
      * apply list_lookup_insert_ne. intros ->. apply Hj. left. reflexivity.
      * intros Hr. apply Hj. right. exact Hr.
Qed.

(** The names come back as they are stored.  With a registry whose key can
    be opened, reports as many values as it stores names, and answers the
    request for each index with the terminated UTF-16 data of the name at
    that index, [GetPortsList] returns exactly the stored ASCII names, in
    order, and no error. *)
Theorem GetPortsList_returns_stored (os : OS) (I : world os -> Prop)
    (stored : list string) (w w1 : world os) (key : Handle) :
  syscall os (RegOpenKeyEx SERIALCOMM) w = (inl key, w1) ->
  I w1 ->
  (forall w', I w' ->
      exists w'', syscall os (RegQueryInfoKey key) w'
                  = (inl (Z.of_nat (length stored)), w'') /\ I w'') ->
  (forall i name w',
      I w' -> stored !! i = Some name ->
      exists w'', syscall os (RegEnumValue key (uint32 (Z.of_nat i))) w'
                  = (inl (units_of_string name ++ [0]), w'') /\ I w'') ->
  Forall (fun name => is_ascii_name name = true
                      /\ (String.length name < 1024)%nat) stored ->
  result (run os GetPortsList w) = (Some stored, None).
Proof.
  intros Ho Hw1 Hq Hen Hascii.
  rewrite run_GetPortsList, Ho.
  destruct (Hq w1 Hw1) as (w2 & Hquery & Hw2). rewrite Hquery. cbv zeta.
  rewrite Nat2Z.id.
  destruct (enum_values_reads os key I stored Hen Hascii
              (seq 0 (length (replicate (length stored) EmptyString)))
              (replicate (length stored) EmptyString) w2 Hw2)
    as (l & t & w3 & Hrun & _ & Hlen & Hl & _).
  { apply NoDup_ListNoDup, List.seq_NoDup. }
  { intros i Hi. apply List.in_seq in Hi. rewrite length_replicate in *. lia. }
  rewrite Hrun.
  destruct (syscall os (RegCloseKey key) w3) as [c w4].
  unfold result. cbn [fst snd]. f_equal. f_equal.
  rewrite length_replicate in Hlen, Hl.
  apply list_eq. intros i.
  destruct (decide (i < length stored)%nat) as [Hi | Hi].
  - apply Hl. apply List.in_seq. lia.
  - rewrite !lookup_ge_None_2 by lia. reflexivity.
Qed.

(** On the reference machine, whose registry stores [COM1] and [COM3]. *)
Lemma GetPortsList_returns_stored_witness :
  result (run Windows GetPortsList (boot good_driver default_dcb [] [])) =
  (Some ["COM1"; "COM3"], None).
Proof.
  apply (GetPortsList_returns_stored Windows
           (fun m => registry_holds ["COM1"; "COM3"] m)
           ["COM1"; "COM3"]
           (boot good_driver default_dcb [] [])
           (with_key true (boot good_driver default_dcb [] [])) KEY).
  - reflexivity.
  - split; reflexivity.
  - intros m [Hk Hr]. exists m. split; [| split; assumption].
    simpl. rewrite Hr. unfold live_key. rewrite Hk. reflexivity.
  - intros i name m [Hk Hr] Hname. exists m. split; [| split; assumption].
    simpl. rewrite Hr. unfold live_key. rewrite Hk. simpl.
    destruct i as [| [| i]]; simpl in Hname; try discriminate;
      injection Hname as <-; reflexivity.
  - repeat constructor.
Defined.

(* ===================================================================== *)
(** ** [Read] on a quiet line *)
(* ===================================================================== *)

(** [Read] does not return while the line is quiet and the device alive: if
    in every state the system can be in ([I]) the read comes back empty and
    the control record can be fetched and written back, then no number of
    blocking reads makes [Read] return, and it never closes the handle. *)
Theorem Read_waits_while_quiet (os : OS) (I : world os -> Prop)
    (port : SerialPort) (len : nat) :
  (forall w, I w ->
     exists w1 d w2 w3,
       syscall os (ReadFile (handle port) len) w = ((0, None), w1)
       /\ syscall os (GetCommState (handle port)) w1 = (inl d, w2)
       /\ syscall os (SetCommState (handle port) d) w2 = (None, w3)
       /\ I w3) ->
  forall (fuel : nat) (params : DCB) (w : world os),
    I w ->
    result (run os (Read_loop fuel port len params) w) = None
    /\ closes (handle port) (trace (run os (Read_loop fuel port len params) w)) = 0%nat.
Proof.
  intros Hround.
  induction fuel as [| fuel IH]; intros params w Hw; [split; reflexivity |].
  destruct (Hround w Hw) as (w1 & d & w2 & w3 & Hr & Hg & Hs & Hw3).
  rewrite Read_loop_step, Hr. cbn [fst snd]. change (0 <? 0) with false. cbv iota.
  rewrite Hg, Hs.
  destruct (IH d w3 Hw3) as [Hres Hcl].
  destruct (run os (Read_loop fuel port len d) w3) as [[a t] w4].
  unfold result, trace in *. cbn [fst snd] in *.
  split; [exact Hres |]. exact Hcl.
Qed.

(** On the reference machine: an open port on which nothing arrives. *)
Lemma Read_waits_while_quiet_witness :
  result (run Windows (Read 1000 port4 16) (opened good_driver default_dcb [] []))
  = None.
Proof.
  apply (Read_waits_while_quiet Windows quiet port4 16).
  - intros m (Ho & Hp & Hrx & Hf & Hd).
    exists m, (m_dcb m), m, (with_dcb (m_dcb m) m).
    cbn [syscall Windows machine_call handle port4].
    unfold device_call, live. rewrite Ho, Hp, Hrx, Hf, Hd, Z.eqb_refl. cbn.
    repeat split; assumption.
  - repeat split.
Defined.
